(** * fcl: geometry utilities and rigid transforms

    A shallow embedding of [fcl/math/geometry.h] and of the classes
    [Quaternion3f] and [Transform3f] of [fcl/transform.h].

    The scalar type ([Scalar], [T], [FCL_REAL]) is read as the field of real
    numbers: every arithmetic operation of the source is the exact operation
    on [R], [std::sqrt] is [sqrt] and [std::abs] is [Rabs].  Rounding is not
    part of the model, so the equalities below are the exact laws the
    floating-point code approximates. *)

From Stdlib Require Import Reals Lra Psatz List String Bool.
Import ListNotations.

Open Scope R_scope.

(** ** Fixed-size vectors and matrices *)

(** Modelled from the spec: the 3-vector type ([Vector3<Scalar>] of
    [fcl/data_types.h], [Vec3f] of [fcl/vec_3f.h]) is an external primitive
    holding three scalars, with the standard arithmetic. *)
Record Vector3 : Type := mkVec { vx : R; vy : R; vz : R }.

Definition Vec3f : Type := Vector3.

(** Modelled from the spec: the 3x3 matrix type ([Matrix3<T>],
    [Matrix3f] of [fcl/matrix_3f.h]), nine scalars addressed as
    [m(row, column)]. *)
Record Matrix3 : Type := mkMat {
  m00 : R; m01 : R; m02 : R;
  m10 : R; m11 : R; m12 : R;
  m20 : R; m21 : R; m22 : R
}.

Definition Matrix3f : Type := Matrix3.

Module Vec.

Definition zero : Vector3 := mkVec 0 0 0.

Definition add (a b : Vector3) : Vector3 :=
  mkVec (vx a + vx b) (vy a + vy b) (vz a + vz b).

Definition sub (a b : Vector3) : Vector3 :=
  mkVec (vx a - vx b) (vy a - vy b) (vz a - vz b).

Definition neg (a : Vector3) : Vector3 :=
  mkVec (- vx a) (- vy a) (- vz a).

(** [v /= s] *)
Definition div (a : Vector3) (s : R) : Vector3 :=
  mkVec (vx a / s) (vy a / s) (vz a / s).

Definition dot (a b : Vector3) : R :=
  vx a * vx b + vy a * vy b + vz a * vz b.

Definition cross (a b : Vector3) : Vector3 :=
  mkVec (vy a * vz b - vz a * vy b)
        (vz a * vx b - vx a * vz b)
        (vx a * vy b - vy a * vx b).

Definition squaredNorm (a : Vector3) : R := dot a a.

Definition norm (a : Vector3) : R := sqrt (squaredNorm a).

(** [maxCoeff()] without an index argument: the largest coefficient. *)
Definition maxCoeff (a : Vector3) : R := Rmax (vx a) (Rmax (vy a) (vz a)).

(** [Vec3f::isZero()]: exact comparison of every component with zero. *)
Definition isZero (a : Vector3) : bool :=
  if Req_dec_T (vx a) 0 then
    if Req_dec_T (vy a) 0 then
      if Req_dec_T (vz a) 0 then true else false
    else false
  else false.

End Vec.

Module Mat.

Definition identity : Matrix3 := mkMat 1 0 0  0 1 0  0 0 1.

Definition transpose (a : Matrix3) : Matrix3 :=
  mkMat (m00 a) (m10 a) (m20 a)
        (m01 a) (m11 a) (m21 a)
        (m02 a) (m12 a) (m22 a).

Definition mul (a b : Matrix3) : Matrix3 :=
  mkMat (m00 a * m00 b + m01 a * m10 b + m02 a * m20 b)
        (m00 a * m01 b + m01 a * m11 b + m02 a * m21 b)
        (m00 a * m02 b + m01 a * m12 b + m02 a * m22 b)
        (m10 a * m00 b + m11 a * m10 b + m12 a * m20 b)
        (m10 a * m01 b + m11 a * m11 b + m12 a * m21 b)
        (m10 a * m02 b + m11 a * m12 b + m12 a * m22 b)
        (m20 a * m00 b + m21 a * m10 b + m22 a * m20 b)
        (m20 a * m01 b + m21 a * m11 b + m22 a * m21 b)
        (m20 a * m02 b + m21 a * m12 b + m22 a * m22 b).

Definition mulv (a : Matrix3) (v : Vector3) : Vector3 :=
  mkVec (m00 a * vx v + m01 a * vy v + m02 a * vz v)
        (m10 a * vx v + m11 a * vy v + m12 a * vz v)
        (m20 a * vx v + m21 a * vy v + m22 a * vz v).

Definition col0 (a : Matrix3) : Vector3 := mkVec (m00 a) (m10 a) (m20 a).
Definition col1 (a : Matrix3) : Vector3 := mkVec (m01 a) (m11 a) (m21 a).
Definition col2 (a : Matrix3) : Vector3 := mkVec (m02 a) (m12 a) (m22 a).

Definition det (a : Matrix3) : R :=
  m00 a * (m11 a * m22 a - m12 a * m21 a)
  - m01 a * (m10 a * m22 a - m12 a * m20 a)
  + m02 a * (m10 a * m21 a - m11 a * m20 a).

(** The caller contract on a matrix that stands for a rotation:
    orthonormal columns and determinant +1. *)
Definition is_rotation (a : Matrix3) : Prop :=
  mul (transpose a) a = identity /\ det a = 1.

End Mat.

(** ** geometry.h *)

Module Geometry.

(** [normalize(Vector3<Scalar>& v, bool* signal)]: the pair is the final
    value of [v] and the value stored through [signal]. *)
Definition normalize (v : Vector3) : Vector3 * bool :=
  let sqr_length := Vec.squaredNorm v in
  if Rgt_dec sqr_length 0
  then (Vec.div v (sqrt sqr_length), true)
  else (v, false).

(** [triple(x, y, z)] *)
Definition triple (x y z : Vector3) : R := Vec.dot x (Vec.cross y z).

(** [generateCoordinateSystem(w, u, v)], vector variant: the pair is the
    final value of [(u, v)]; every coefficient of both is assigned on
    either branch. *)
Definition generateCoordinateSystem (w : Vector3) : Vector3 * Vector3 :=
  if Rge_dec (Rabs (vx w)) (Rabs (vy w)) then
    let inv_length := 1 / sqrt (vx w * vx w + vz w * vz w) in
    let u0 := - vz w * inv_length in
    let u1 := 0 in
    let u2 := vx w * inv_length in
    let v0 := vy w * u2 in
    let v1 := vz w * u0 - vx w * u2 in
    let v2 := - vy w * u0 in
    (mkVec u0 u1 u2, mkVec v0 v1 v2)
  else
    let inv_length := 1 / sqrt (vy w * vy w + vz w * vz w) in
    let u0 := 0 in
    let u1 := vz w * inv_length in
    let u2 := - vy w * inv_length in
    let v0 := vy w * u2 - vz w * u1 in
    let v1 := - vx w * u2 in
    let v2 := vx w * u1 in
    (mkVec u0 u1 u2, mkVec v0 v1 v2).

(** [hat(mat, vec)]: the comma initialiser fills [mat] row by row. *)
Definition hat (vec : Vector3) : Matrix3 :=
  mkMat 0 (- vz vec) (vy vec)
        (vz vec) 0 (- vx vec)
        (- vy vec) (vx vec) 0.

(** [Eigen::ComputationInfo] *)
Inductive ComputationInfo : Type :=
  Success | NumericalIssue | NoConvergence | InvalidInput.

Definition is_Success (i : ComputationInfo) : bool :=
  match i with Success => true | _ => false end.

(** Modelled from the spec: [Eigen::SelfAdjointEigenSolver] is external;
    what [eigen] reads from it is its status and its two results. *)
Record SelfAdjointEigenSolver : Type := mkSolver {
  info : ComputationInfo;
  eigenvalues : Vector3;
  eigenvectors : Matrix3
}.

Definition eigen_failure_message : string :=
  "[eigen] Failed to compute eigendecomposition.\n".

(** The state [eigen] works on: the two output arguments and the
    characters sent to [std::cerr] so far. *)
Record EigenOut : Type := mkEigenOut {
  dout : Vector3;
  vout : Matrix3;
  cerr : list string
}.

(** [eigen(m, dout, vout)]; the function returns [void]. *)
Definition eigen (solve : Matrix3 -> SelfAdjointEigenSolver)
           (m : Matrix3) (st : EigenOut) : EigenOut :=
  let eigensolver := solve m in
  if negb (is_Success (info eigensolver))
  then mkEigenOut (dout st) (vout st) (cerr st ++ [eigen_failure_message])
  else mkEigenOut (eigenvalues eigensolver) (eigenvectors eigensolver) (cerr st).

(** The condition of the [assert] that opens the matrix variant of
    [generateCoordinateSystem]: [axis.col(0).maxCoeff() == 2]. *)
Definition axis_assertion (axis : Matrix3) : bool :=
  if Req_dec_T (Vec.maxCoeff (Mat.col0 axis)) 2 then true else false.

(** The statements after the [assert]: columns 1 and 2 are written in
    place, column 0 is only read. *)
Definition generateCoordinateSystem_axis_body (axis : Matrix3) : Matrix3 :=
  if Rge_dec (Rabs (m00 axis)) (Rabs (m10 axis)) then
    let inv_length := 1 / sqrt (m00 axis ^ 2 + m20 axis ^ 2) in
    let a01 := - m20 axis * inv_length in
    let a11 := 0 in
    let a21 := m00 axis * inv_length in
    let a02 := m10 axis * a21 in
    let a12 := m20 axis * a01 - m00 axis * a21 in
    let a22 := - m10 axis * a01 in
    mkMat (m00 axis) a01 a02
          (m10 axis) a11 a12
          (m20 axis) a21 a22
  else
    let inv_length := 1 / sqrt (m10 axis ^ 2 + m20 axis ^ 2) in
    let a01 := 0 in
    let a11 := m20 axis * inv_length in
    let a21 := - m10 axis * inv_length in
    let a02 := m10 axis * a21 - m20 axis * a11 in
    let a12 := - m00 axis * a21 in
    let a22 := m00 axis * a11 in
    mkMat (m00 axis) a01 a02
          (m10 axis) a11 a12
          (m20 axis) a21 a22.

(** [generateCoordinateSystem(axis)], matrix variant.  [ndebug] tells
    whether [NDEBUG] was defined at compile time, which turns [assert]
    into nothing; [None] is the abort of a failed assertion. *)
Definition generateCoordinateSystem_axis (ndebug : bool) (axis : Matrix3)
  : option Matrix3 :=
  if ndebug || axis_assertion axis
  then Some (generateCoordinateSystem_axis_body axis)
  else None.

(** The precondition written above the assertion ("axis.col(0) is closest
    to z-axis"): the z coefficient of column 0 has the largest
    magnitude. *)
Definition closest_to_z (axis : Matrix3) : Prop :=
  Rabs (m00 axis) <= Rabs (m20 axis) /\ Rabs (m10 axis) <= Rabs (m20 axis).

(** [relativeTransform(R1, t1, R2, t2, R, t)]: the pair is the final
    value of [(R, t)]. *)
Definition relativeTransform (R1 : Matrix3) (t1 : Vector3)
           (R2 : Matrix3) (t2 : Vector3) : Matrix3 * Vector3 :=
  (Mat.mul (Mat.transpose R1) R2,
   Mat.mulv (Mat.transpose R1) (Vec.sub t2 t1)).

(** Modelled from the spec: [Eigen::Transform<Scalar, 3, Eigen::Isometry>]
    is external; a rigid transform with a linear part and a translation,
    applied as [linear * x + translation] and composed accordingly. *)
Record Isometry : Type := mkIso { linear : Matrix3; translation : Vector3 }.

Definition iso_apply (a : Isometry) (x : Vector3) : Vector3 :=
  Vec.add (Mat.mulv (linear a) x) (translation a).

Definition iso_mul (a b : Isometry) : Isometry :=
  mkIso (Mat.mul (linear a) (linear b))
        (Vec.add (Mat.mulv (linear a) (translation b)) (translation a)).

(** [relativeTransform(T1, T2, R, t)], the overload on transforms. *)
Definition relativeTransform_iso (T1 T2 : Isometry) : Matrix3 * Vector3 :=
  relativeTransform (linear T1) (translation T1) (linear T2) (translation T2).

End Geometry.

(** ** transform.h: Quaternion3f *)

(** [FCL_REAL data[4]], in the order w, x, y, z. *)
Record Quaternion3f : Type := mkQuat { qw : R; qx : R; qy : R; qz : R }.

Module Quat.

(** [Quaternion3f()]: the default quaternion is the identity rotation. *)
Definition identity : Quaternion3f := mkQuat 1 0 0 0.

Definition isIdentity (a : Quaternion3f) : bool :=
  if Req_dec_T (qw a) 1 then
    if Req_dec_T (qx a) 0 then
      if Req_dec_T (qy a) 0 then
        if Req_dec_T (qz a) 0 then true else false
      else false
    else false
  else false.

Definition vec (a : Quaternion3f) : Vector3 := mkVec (qx a) (qy a) (qz a).

Definition squaredNorm (a : Quaternion3f) : R :=
  qw a * qw a + qx a * qx a + qy a * qy a + qz a * qz a.

(** The invariant a quaternion must have to stand for a rotation. *)
Definition is_unit (a : Quaternion3f) : Prop := squaredNorm a = 1.

(** Modelled from the spec: [operator*] is only declared in the header;
    the Hamilton product. [operator*=] stores the same product in the
    left operand. *)
Definition mul (a b : Quaternion3f) : Quaternion3f :=
  mkQuat (qw a * qw b - qx a * qx b - qy a * qy b - qz a * qz b)
         (qw a * qx b + qx a * qw b + qy a * qz b - qz a * qy b)
         (qw a * qy b - qx a * qz b + qy a * qw b + qz a * qx b)
         (qw a * qz b + qx a * qy b - qy a * qx b + qz a * qw b).

(** Modelled from the spec: [conj] is only declared in the header;
    it negates the vector part. *)
Definition conj (a : Quaternion3f) : Quaternion3f :=
  mkQuat (qw a) (- qx a) (- qy a) (- qz a).

(** The literal sandwich product [a * (0, v) * conj(a)], vector part. *)
Definition sandwich (a : Quaternion3f) (v : Vector3) : Vector3 :=
  vec (mul (mul a (mkQuat 0 (vx v) (vy v) (vz v))) (conj a)).

(** Modelled from the spec: [transform] is only declared in the header;
    the rotation of a vector in the closed form of the sandwich product,
    [v + w t + u x t] with [t = 2 (u x v)] and [u] the vector part. *)
Definition transform (a : Quaternion3f) (v : Vector3) : Vector3 :=
  let u := vec a in
  let t := Vec.add (Vec.cross u v) (Vec.cross u v) in
  Vec.add (Vec.add v (mkVec (qw a * vx t) (qw a * vy t) (qw a * vz t)))
          (Vec.cross u t).

(** Modelled from the spec: [toRotation] is only declared in the header;
    the conversion of a quaternion to its matrix. *)
Definition toRotation (a : Quaternion3f) : Matrix3f :=
  let twoX := 2 * qx a in
  let twoY := 2 * qy a in
  let twoZ := 2 * qz a in
  let twoWX := twoX * qw a in
  let twoWY := twoY * qw a in
  let twoWZ := twoZ * qw a in
  let twoXX := twoX * qx a in
  let twoXY := twoY * qx a in
  let twoXZ := twoZ * qx a in
  let twoYY := twoY * qy a in
  let twoYZ := twoZ * qy a in
  let twoZZ := twoZ * qz a in
  mkMat (1 - (twoYY + twoZZ)) (twoXY - twoWZ) (twoXZ + twoWY)
        (twoXY + twoWZ) (1 - (twoXX + twoZZ)) (twoYZ - twoWX)
        (twoXZ - twoWY) (twoYZ + twoWX) (1 - (twoXX + twoYY)).

(** Modelled from the spec: [fromRotation] is only declared in the
    header; the conversion of a matrix to a quaternion, which branches on
    the sign of the trace and otherwise on the largest diagonal entry, so
    that the divisor is never small. *)
Definition fromRotation (M : Matrix3f) : Quaternion3f :=
  let trace := m00 M + m11 M + m22 M in
  if Rgt_dec trace 0 then
    let root := sqrt (trace + 1) in
    let w := (1/2) * root in
    let root := (1/2) / root in
    mkQuat w ((m21 M - m12 M) * root)
             ((m02 M - m20 M) * root)
             ((m10 M - m01 M) * root)
  else if Rgt_dec (m22 M) (Rmax (m00 M) (m11 M)) then
    let root := sqrt (m22 M - m00 M - m11 M + 1) in
    let z := (1/2) * root in
    let root := (1/2) / root in
    mkQuat ((m10 M - m01 M) * root)
           ((m02 M + m20 M) * root)
           ((m12 M + m21 M) * root)
           z
  else if Rgt_dec (m11 M) (m00 M) then
    let root := sqrt (m11 M - m22 M - m00 M + 1) in
    let y := (1/2) * root in
    let root := (1/2) / root in
    mkQuat ((m02 M - m20 M) * root)
           ((m01 M + m10 M) * root)
           y
           ((m21 M + m12 M) * root)
  else
    let root := sqrt (m00 M - m11 M - m22 M + 1) in
    let x := (1/2) * root in
    let root := (1/2) / root in
    mkQuat ((m21 M - m12 M) * root)
           x
           ((m10 M + m01 M) * root)
           ((m20 M + m02 M) * root).

(** Modelled from the spec: the unary [operator-] is only declared in the
    header; it negates every component. *)
Definition neg (a : Quaternion3f) : Quaternion3f :=
  mkQuat (- qw a) (- qx a) (- qy a) (- qz a).

End Quat.

(** ** transform.h: Transform3f *)

(** The four members of the class: the flag [matrix_set], the matrix
    cache [R], the translation [T] and the rotation [q].  The first two are
    declared [mutable]. *)
Record Transform3f : Type := mkTransform3f {
  matrix_set : bool;
  tf_R : Matrix3f;
  tf_T : Vec3f;
  tf_q : Quaternion3f
}.

Module Tf.

Definition set_matrix_set (b : bool) (self : Transform3f) : Transform3f :=
  mkTransform3f b (tf_R self) (tf_T self) (tf_q self).

Definition set_R (M : Matrix3f) (self : Transform3f) : Transform3f :=
  mkTransform3f (matrix_set self) M (tf_T self) (tf_q self).

Definition set_T (v : Vec3f) (self : Transform3f) : Transform3f :=
  mkTransform3f (matrix_set self) (tf_R self) v (tf_q self).

Definition set_q (a : Quaternion3f) (self : Transform3f) : Transform3f :=
  mkTransform3f (matrix_set self) (tf_R self) (tf_T self) a.

(** [setIdentity()] *)
Definition setIdentity (self : Transform3f) : Transform3f :=
  let s1 := set_R Mat.identity self in
  let s2 := set_T (mkVec 0 0 0) s1 in
  let s3 := set_q Quat.identity s2 in
  set_matrix_set true s3.

(** The object before the body of a constructor runs: members without an
    initialiser hold what their own default constructors leave, which the
    header does not show for [Matrix3f] and [Vec3f]; [q] starts as the
    identity quaternion. *)
Definition fresh (R0 : Matrix3f) (T0 : Vec3f) : Transform3f :=
  mkTransform3f false R0 T0 Quat.identity.

(** [Transform3f()] *)
Definition ctor_default (R0 : Matrix3f) (T0 : Vec3f) : Transform3f :=
  setIdentity (fresh R0 T0).

(** [Transform3f(const Matrix3f& R_, const Vec3f& T_)] *)
Definition ctor_RT (R_ : Matrix3f) (T_ : Vec3f) : Transform3f :=
  set_q (Quat.fromRotation R_) (mkTransform3f true R_ T_ Quat.identity).

(** [Transform3f(const Quaternion3f& q_, const Vec3f& T_)] *)
Definition ctor_qT (R0 : Matrix3f) (q_ : Quaternion3f) (T_ : Vec3f)
  : Transform3f :=
  mkTransform3f false R0 T_ q_.

(** [Transform3f(const Matrix3f& R_)] *)
Definition ctor_R (T0 : Vec3f) (R_ : Matrix3f) : Transform3f :=
  set_q (Quat.fromRotation R_) (mkTransform3f true R_ T0 Quat.identity).

(** [Transform3f(const Quaternion3f& q_)] *)
Definition ctor_q (R0 : Matrix3f) (T0 : Vec3f) (q_ : Quaternion3f)
  : Transform3f :=
  mkTransform3f false R0 T0 q_.

(** [Transform3f(const Vec3f& T_)] *)
Definition ctor_T (R0 : Matrix3f) (T_ : Vec3f) : Transform3f :=
  set_R Mat.identity (mkTransform3f true R0 T_ Quat.identity).


(** [getRotation() const]: the returned matrix and the object afterwards;
    the method writes the two [mutable] members. *)
Definition getRotation (self : Transform3f) : Matrix3f * Transform3f :=
  let s1 :=
    if negb (matrix_set self)
    then set_matrix_set true (set_R (Quat.toRotation (tf_q self)) self)
    else self in
  (tf_R s1, s1).

(** [getQuatRotation() const] *)
Definition getQuatRotation (self : Transform3f) : Quaternion3f := tf_q self.

(** [setTransform(const Matrix3f& R_, const Vec3f& T_)] *)
Definition setTransform_RT (R_ : Matrix3f) (T_ : Vec3f) (self : Transform3f)
  : Transform3f :=
  let s1 := set_matrix_set true self in
  let s2 := set_R R_ s1 in
  let s3 := set_T T_ s2 in
  set_q (Quat.fromRotation R_) s3.

(** [setTransform(const Quaternion3f& q_, const Vec3f& T_)] *)
Definition setTransform_qT (q_ : Quaternion3f) (T_ : Vec3f)
           (self : Transform3f) : Transform3f :=
  let s1 := set_matrix_set false self in
  let s2 := set_q q_ s1 in
  set_T T_ s2.

(** [setRotation(const Matrix3f& R_)] *)
Definition setRotation (R_ : Matrix3f) (self : Transform3f) : Transform3f :=
  let s1 := set_matrix_set true self in
  let s2 := set_R R_ s1 in
  set_q (Quat.fromRotation R_) s2.

(** [setTranslation(const Vec3f& T_)] *)
Definition setTranslation (T_ : Vec3f) (self : Transform3f) : Transform3f :=
  set_T T_ self.

(** [setQuatRotation(const Quaternion3f& q_)] *)
Definition setQuatRotation (q_ : Quaternion3f) (self : Transform3f)
  : Transform3f :=
  let s1 := set_matrix_set false self in
  set_q q_ s1.

(** [transform(const Vec3f& v) const] *)
Definition transform (self : Transform3f) (v : Vec3f) : Vec3f :=
  Vec.add (Quat.transform (tf_q self) v) (tf_T self).

(** [inverse()]: works in place and returns [*this]; the result is the
    object afterwards.  The translation is computed with the quaternion
    already conjugated. *)
Definition inverse (self : Transform3f) : Transform3f :=
  let s1 := set_matrix_set false self in
  let s2 := set_q (Quat.conj (tf_q s1)) s1 in
  set_T (Quat.transform (tf_q s2) (Vec.neg (tf_T s2))) s2.

(** [inverseTimes(const Transform3f& other) const]: the returned value
    and the receiver afterwards; [R0] is the matrix the constructor leaves
    in the cache of the new object. *)
Definition inverseTimes (R0 : Matrix3f) (self other : Transform3f)
  : Transform3f * Transform3f :=
  let q_inv := Quat.conj (tf_q self) in
  (ctor_qT R0 (Quat.mul q_inv (tf_q other))
           (Quat.transform q_inv (Vec.sub (tf_T other) (tf_T self))),
   self).

(** The argument of [operator*=] is a reference, which may name the
    receiver itself. *)
Inductive operand : Type :=
| This : operand
| Other : Transform3f -> operand.

Definition deref (o : operand) (self : Transform3f) : Transform3f :=
  match o with
  | This => self
  | Other t => t
  end.

(** [operator*=(const Transform3f& other)]: the receiver afterwards;
    [other] is read through the reference at each statement. *)
Definition mul_assign (other : operand) (self : Transform3f) : Transform3f :=
  let s1 := set_matrix_set false self in
  let s2 := set_T (Vec.add (Quat.transform (tf_q s1) (tf_T (deref other s1)))
                           (tf_T s1)) s1 in
  set_q (Quat.mul (tf_q s2) (tf_q (deref other s2))) s2.

(** [operator*(const Transform3f& other) const]; [R0] is the matrix the
    constructor leaves in the cache of the new object. *)
Definition mul (R0 : Matrix3f) (self other : Transform3f) : Transform3f :=
  let q_new := Quat.mul (tf_q self) (tf_q other) in
  ctor_qT R0 q_new
          (Vec.add (Quat.transform (tf_q self) (tf_T other)) (tf_T self)).

(** [isIdentity() const] *)
Definition isIdentity (self : Transform3f) : bool :=
  Quat.isIdentity (tf_q self) && Vec.isZero (tf_T self).

(** The invariant of the cache. *)
Definition cache_ok (t : Transform3f) : Prop :=
  matrix_set t = true -> tf_R t = Quat.toRotation (tf_q t).

(** The objects the constructors and the value-returning operators
    yield, where every matrix handed in as a rotation is one. *)
Inductive constructed : Transform3f -> Prop :=
| c_default R0 T0 : constructed (ctor_default R0 T0)
| c_RT R_ T_ : Mat.is_rotation R_ -> constructed (ctor_RT R_ T_)
| c_qT R0 q_ T_ : constructed (ctor_qT R0 q_ T_)
| c_R T0 R_ : Mat.is_rotation R_ -> constructed (ctor_R T0 R_)
| c_q R0 T0 q_ : constructed (ctor_q R0 T0 q_)
| c_T R0 T_ : constructed (ctor_T R0 T_)
| c_mul R0 t o : constructed (mul R0 t o)
| c_inverseTimes R0 t o : constructed (fst (inverseTimes R0 t o)).

(** One call of a member function on an object: the object before and
    after. *)
Inductive step : Transform3f -> Transform3f -> Prop :=
| s_setIdentity t : step t (setIdentity t)
| s_getRotation t : step t (snd (getRotation t))
| s_setTransform_RT R_ T_ t :
    Mat.is_rotation R_ -> step t (setTransform_RT R_ T_ t)
| s_setTransform_qT q_ T_ t : step t (setTransform_qT q_ T_ t)
| s_setRotation R_ t : Mat.is_rotation R_ -> step t (setRotation R_ t)
| s_setTranslation T_ t : step t (setTranslation T_ t)
| s_setQuatRotation q_ t : step t (setQuatRotation q_ t)
| s_inverse t : step t (inverse t)
| s_inverseTimes R0 t o : step t (snd (inverseTimes R0 t o))
| s_mul_assign o t : step t (mul_assign o t).

Inductive reachable : Transform3f -> Prop :=
| r_constructed t : constructed t -> reachable t
| r_step t t' : reachable t -> step t t' -> reachable t'.

End Tf.

(** ** Properties *)

Lemma vec_eq (a b : Vector3) :
  vx a = vx b -> vy a = vy b -> vz a = vz b -> a = b.
Proof. destruct a, b; simpl; intros -> -> ->; reflexivity. Qed.

(** C5: [normalize] divides a vector of positive squared norm by its norm
    and signals [true]; any other vector is returned as it was with the
    signal [false].  The zero vector is left alone with [false], and
    (3,4,0) becomes (0.6,0.8,0) with [true]. *)
Theorem normalize_spec :
  (forall v, Vec.squaredNorm v > 0 ->
     Geometry.normalize v = (Vec.div v (Vec.norm v), true)) /\
  (forall v, ~ Vec.squaredNorm v > 0 ->
     Geometry.normalize v = (v, false)) /\
  Geometry.normalize (mkVec 0 0 0) = (mkVec 0 0 0, false) /\
  Geometry.normalize (mkVec 3 4 0) = (mkVec (6/10) (8/10) 0, true).
Proof.
  assert (Hpos : forall v, Vec.squaredNorm v > 0 ->
     Geometry.normalize v = (Vec.div v (Vec.norm v), true)).
  { intros v H. unfold Geometry.normalize.
    destruct (Rgt_dec (Vec.squaredNorm v) 0) as [_|n]; [reflexivity|contradiction]. }
  assert (Hneg : forall v, ~ Vec.squaredNorm v > 0 ->
     Geometry.normalize v = (v, false)).
  { intros v H. unfold Geometry.normalize.
    destruct (Rgt_dec (Vec.squaredNorm v) 0) as [p|_]; [contradiction|reflexivity]. }
  repeat split; auto.
  - apply Hneg. unfold Vec.squaredNorm, Vec.dot; simpl. lra.
  - rewrite Hpos by (unfold Vec.squaredNorm, Vec.dot; simpl; lra).
    assert (Hn : Vec.norm (mkVec 3 4 0) = 5).
    { unfold Vec.norm, Vec.squaredNorm, Vec.dot; simpl.
      replace (3 * 3 + 4 * 4 + 0 * 0) with (5 * 5) by lra.
      apply sqrt_square; lra. }
    rewrite Hn. f_equal. apply vec_eq; simpl; lra.
Qed.

Lemma normalize_spec_witness :
  Geometry.normalize (mkVec 0 0 2) = (Vec.div (mkVec 0 0 2) (Vec.norm (mkVec 0 0 2)), true) /\
  Geometry.normalize (mkVec 0 0 0) = (mkVec 0 0 0, false).
Proof.
  split.
  - apply (proj1 normalize_spec).
    unfold Vec.squaredNorm, Vec.dot; simpl; lra.
  - apply (proj1 (proj2 normalize_spec)).
    unfold Vec.squaredNorm, Vec.dot; simpl; lra.
Defined.

Lemma mat_eq (a b : Matrix3) :
  m00 a = m00 b -> m01 a = m01 b -> m02 a = m02 b ->
  m10 a = m10 b -> m11 a = m11 b -> m12 a = m12 b ->
  m20 a = m20 b -> m21 a = m21 b -> m22 a = m22 b -> a = b.
Proof.
  destruct a, b; simpl; intros; subst; reflexivity.
Qed.

Lemma quat_eq (a b : Quaternion3f) :
  qw a = qw b -> qx a = qx b -> qy a = qy b -> qz a = qz b -> a = b.
Proof. destruct a, b; simpl; intros -> -> -> ->; reflexivity. Qed.

(** *** The vector variant of generateCoordinateSystem *)

Section Frame.

Variables x y z : R.
Hypothesis unit_w : x * x + y * y + z * z = 1.

Lemma frame_den_xz : Rabs x >= Rabs y -> 0 < x * x + z * z.
Proof.
  intros H.
  destruct (Req_dec x 0) as [Hx|Hx].
  - subst x. rewrite Rabs_R0 in H.
    assert (Hy : y = 0).
    { destruct (Req_dec y 0) as [|Hy]; [assumption|].
      apply Rabs_pos_lt in Hy. lra. }
    subst y. nra.
  - nra.
Qed.

Lemma frame_den_yz : ~ Rabs x >= Rabs y -> 0 < y * y + z * z.
Proof.
  intros H.
  destruct (Req_dec y 0) as [Hy|Hy].
  - subst y. rewrite Rabs_R0 in H. exfalso. apply H.
    apply Rle_ge, Rabs_pos.
  - nra.
Qed.

End Frame.

Lemma inv_sqrt_sq (d : R) :
  0 < d -> (1 / sqrt d) * (1 / sqrt d) * d = 1.
Proof.
  intros Hd.
  assert (Hs : 0 < sqrt d) by (apply sqrt_lt_R0; exact Hd).
  assert (Hss : sqrt d * sqrt d = d) by (apply sqrt_sqrt; lra).
  rewrite <- Hss at 3. field. lra.
Qed.

(** C6: for a unit vector [w], the vector variant of
    [generateCoordinateSystem] returns [u] and [v] of norm 1, both
    orthogonal to [w] and to each other, with [u x v = w]; the first
    construction is taken exactly when [|w.x| >= |w.y|]. *)
Theorem generateCoordinateSystem_frame (w : Vector3) :
  Vec.norm w = 1 ->
  let (u, v) := Geometry.generateCoordinateSystem w in
  Vec.norm u = 1 /\ Vec.norm v = 1 /\
  Vec.dot u w = 0 /\ Vec.dot v w = 0 /\ Vec.dot u v = 0 /\
  Vec.cross u v = w /\
  (Rabs (vx w) >= Rabs (vy w) ->
     u = Vec.div (mkVec (- vz w) 0 (vx w)) (sqrt (vx w * vx w + vz w * vz w))) /\
  (~ Rabs (vx w) >= Rabs (vy w) ->
     u = Vec.div (mkVec 0 (vz w) (- vy w)) (sqrt (vy w * vy w + vz w * vz w))).
Proof.
  destruct w as [x y z]. unfold Vec.norm, Vec.squaredNorm, Vec.dot. simpl.
  intros Hn.
  assert (Hu : x * x + y * y + z * z = 1).
  { rewrite <- (sqrt_sqrt (x * x + y * y + z * z)) by nra.
    rewrite Hn. ring. }
  unfold Geometry.generateCoordinateSystem. simpl.
  destruct (Rge_dec (Rabs x) (Rabs y)) as [Hb|Hb].
  - pose proof (frame_den_xz x y z Hu Hb) as Hd.
    pose proof (inv_sqrt_sq _ Hd) as Hi.
    assert (Hs : 0 < sqrt (x * x + z * z)) by (apply sqrt_lt_R0; exact Hd).
    set (i := 1 / sqrt (x * x + z * z)) in *.
    unfold Vec.cross. simpl.
    repeat split.
    + replace (_ + _ + _) with (i * i * (x * x + z * z)) by ring.
      rewrite Hi. apply sqrt_1.
    + replace (_ + _ + _)
        with (i * i * (x * x + z * z) * (x * x + y * y + z * z)) by ring.
      rewrite Hi, Hu, Rmult_1_l. apply sqrt_1.
    + ring.
    + ring.
    + ring.
    + apply vec_eq; simpl.
      * replace (_ - _) with (x * (i * i * (x * x + z * z))) by ring.
        rewrite Hi. ring.
      * replace (_ - _) with (y * (i * i * (x * x + z * z))) by ring.
        rewrite Hi. ring.
      * replace (_ - _) with (z * (i * i * (x * x + z * z))) by ring.
        rewrite Hi. ring.
    + intros _. apply vec_eq; simpl; unfold i; field; lra.
    + intros Hc. contradiction.
  - pose proof (frame_den_yz x y z Hu Hb) as Hd.
    pose proof (inv_sqrt_sq _ Hd) as Hi.
    assert (Hs : 0 < sqrt (y * y + z * z)) by (apply sqrt_lt_R0; exact Hd).
    set (i := 1 / sqrt (y * y + z * z)) in *.
    unfold Vec.cross. simpl.
    repeat split.
    + replace (_ + _ + _) with (i * i * (y * y + z * z)) by ring.
      rewrite Hi. apply sqrt_1.
    + replace (_ + _ + _)
        with (i * i * (y * y + z * z) * (x * x + y * y + z * z)) by ring.
      rewrite Hi, Hu, Rmult_1_l. apply sqrt_1.
    + ring.
    + ring.
    + ring.
    + apply vec_eq; simpl.
      * replace (_ - _) with (x * (i * i * (y * y + z * z))) by ring.
        rewrite Hi. ring.
      * replace (_ - _) with (y * (i * i * (y * y + z * z))) by ring.
        rewrite Hi. ring.
      * replace (_ - _) with (z * (i * i * (y * y + z * z))) by ring.
        rewrite Hi. ring.
    + intros Hc. contradiction.
    + intros _. apply vec_eq; simpl; unfold i; field; lra.
Qed.

Lemma generateCoordinateSystem_frame_witness :
  let (u, v) := Geometry.generateCoordinateSystem (mkVec 0 0 1) in
  Vec.norm u = 1 /\ Vec.norm v = 1 /\
  Vec.dot u (mkVec 0 0 1) = 0 /\ Vec.dot v (mkVec 0 0 1) = 0 /\
  Vec.dot u v = 0 /\ Vec.cross u v = mkVec 0 0 1.
Proof.
  assert (Hn : Vec.norm (mkVec 0 0 1) = 1).
  { unfold Vec.norm, Vec.squaredNorm, Vec.dot; simpl.
    replace (0 * 0 + 0 * 0 + 1 * 1) with 1 by lra. apply sqrt_1. }
  pose proof (generateCoordinateSystem_frame (mkVec 0 0 1) Hn) as H.
  destruct (Geometry.generateCoordinateSystem (mkVec 0 0 1)) as [u v].
  destruct H as (H1 & H2 & H3 & H4 & H5 & H6 & _).
  repeat split; assumption.
Defined.

(** *** Rotation matrices *)

Section Rotation.

Variables a b c d e f g h i : R.
Hypothesis rot : Mat.is_rotation (mkMat a b c d e f g h i).

Lemma rot_cols :
  a * a + d * d + g * g = 1 /\ b * b + e * e + h * h = 1 /\
  c * c + f * f + i * i = 1 /\ a * b + d * e + g * h = 0 /\
  a * c + d * f + g * i = 0 /\ b * c + e * f + h * i = 0.
Proof.
  destruct rot as [Ho _]. unfold Mat.mul, Mat.transpose, Mat.identity in Ho.
  simpl in Ho. injection Ho as H00 H01 H02 H10 H11 H12 H20 H21 H22.
  repeat split; assumption.
Qed.

Lemma rot_det :
  a * (e * i - f * h) - b * (d * i - f * g) + c * (d * h - e * g) = 1.
Proof. destruct rot as [_ Hd]. exact Hd. Qed.

(** With determinant 1 the matrix is its own cofactor matrix. *)
Lemma rot_cofactors :
  a = e * i - f * h /\ b = f * g - d * i /\ c = d * h - e * g /\
  d = c * h - b * i /\ e = a * i - c * g /\ f = b * g - a * h /\
  g = b * f - c * e /\ h = c * d - a * f /\ i = a * e - b * d.
Proof.
  destruct rot_cols as (Haa & Hbb & Hcc & Hab & Hac & Hbc).
  pose proof rot_det as Hd.
  set (D := a * (e * i - f * h) - b * (d * i - f * g) + c * (d * h - e * g)) in Hd.
  repeat split.
  - assert (E : (a * a + d * d + g * g) * (e * i - f * h)
                + (a * b + d * e + g * h) * (f * g - d * i)
                + (a * c + d * f + g * i) * (d * h - e * g) = D * a)
      by (unfold D; ring).
    rewrite Haa, Hab, Hac, Hd in E. lra.
  - assert (E : (a * b + d * e + g * h) * (e * i - f * h)
                + (b * b + e * e + h * h) * (f * g - d * i)
                + (b * c + e * f + h * i) * (d * h - e * g) = D * b)
      by (unfold D; ring).
    rewrite Hbb, Hab, Hbc, Hd in E. lra.
  - assert (E : (a * c + d * f + g * i) * (e * i - f * h)
                + (b * c + e * f + h * i) * (f * g - d * i)
                + (c * c + f * f + i * i) * (d * h - e * g) = D * c)
      by (unfold D; ring).
    rewrite Hcc, Hac, Hbc, Hd in E. lra.
  - assert (E : (a * a + d * d + g * g) * (c * h - b * i)
                + (a * b + d * e + g * h) * (a * i - c * g)
                + (a * c + d * f + g * i) * (b * g - a * h) = D * d)
      by (unfold D; ring).
    rewrite Haa, Hab, Hac, Hd in E. lra.
  - assert (E : (a * b + d * e + g * h) * (c * h - b * i)
                + (b * b + e * e + h * h) * (a * i - c * g)
                + (b * c + e * f + h * i) * (b * g - a * h) = D * e)
      by (unfold D; ring).
    rewrite Hbb, Hab, Hbc, Hd in E. lra.
  - assert (E : (a * c + d * f + g * i) * (c * h - b * i)
                + (b * c + e * f + h * i) * (a * i - c * g)
                + (c * c + f * f + i * i) * (b * g - a * h) = D * f)
      by (unfold D; ring).
    rewrite Hcc, Hac, Hbc, Hd in E. lra.
  - assert (E : (a * a + d * d + g * g) * (b * f - c * e)
                + (a * b + d * e + g * h) * (c * d - a * f)
                + (a * c + d * f + g * i) * (a * e - b * d) = D * g)
      by (unfold D; ring).
    rewrite Haa, Hab, Hac, Hd in E. lra.
  - assert (E : (a * b + d * e + g * h) * (b * f - c * e)
                + (b * b + e * e + h * h) * (c * d - a * f)
                + (b * c + e * f + h * i) * (a * e - b * d) = D * h)
      by (unfold D; ring).
    rewrite Hbb, Hab, Hbc, Hd in E. lra.
  - assert (E : (a * c + d * f + g * i) * (b * f - c * e)
                + (b * c + e * f + h * i) * (c * d - a * f)
                + (c * c + f * f + i * i) * (a * e - b * d) = D * i)
      by (unfold D; ring).
    rewrite Hcc, Hac, Hbc, Hd in E. lra.
Qed.

(** The rows are orthonormal too. *)
Lemma rot_rows :
  a * a + b * b + c * c = 1 /\ d * d + e * e + f * f = 1 /\
  g * g + h * h + i * i = 1 /\ a * d + b * e + c * f = 0 /\
  a * g + b * h + c * i = 0 /\ d * g + e * h + f * i = 0.
Proof.
  destruct rot_cofactors as (Ca & Cb & Cc & Cd & Ce & Cf & Cg & Ch & Ci).
  pose proof rot_det as Hd.
  repeat split.
  - transitivity (a * (e * i - f * h) + b * (f * g - d * i) + c * (d * h - e * g));
      [rewrite <- Ca, <- Cb, <- Cc; ring | lra].
  - transitivity (d * (c * h - b * i) + e * (a * i - c * g) + f * (b * g - a * h));
      [rewrite <- Cd, <- Ce, <- Cf; ring | lra].
  - transitivity (g * (b * f - c * e) + h * (c * d - a * f) + i * (a * e - b * d));
      [rewrite <- Cg, <- Ch, <- Ci; ring | lra].
  - transitivity ((e * i - f * h) * d + (f * g - d * i) * e + (d * h - e * g) * f);
      [rewrite <- Ca, <- Cb, <- Cc; ring | ring].
  - transitivity ((e * i - f * h) * g + (f * g - d * i) * h + (d * h - e * g) * i);
      [rewrite <- Ca, <- Cb, <- Cc; ring | ring].
  - transitivity ((c * h - b * i) * g + (a * i - c * g) * h + (b * g - a * h) * i);
      [rewrite <- Cd, <- Ce, <- Cf; ring | ring].
Qed.

End Rotation.

Lemma rotation_mul_transpose (M : Matrix3) :
  Mat.is_rotation M -> Mat.mul M (Mat.transpose M) = Mat.identity.
Proof.
  destruct M as [a b c d e f g h i]. intros Hrot.
  destruct (rot_rows _ _ _ _ _ _ _ _ _ Hrot) as (H1 & H2 & H3 & H4 & H5 & H6).
  unfold Mat.mul, Mat.transpose, Mat.identity. simpl.
  apply mat_eq; simpl; lra.
Qed.

Lemma mat_mul_assoc (A B C : Matrix3) :
  Mat.mul (Mat.mul A B) C = Mat.mul A (Mat.mul B C).
Proof. apply mat_eq; simpl; ring. Qed.

Lemma mat_mul_identity_l (A : Matrix3) : Mat.mul Mat.identity A = A.
Proof. destruct A. apply mat_eq; simpl; ring. Qed.

Lemma mat_mulv_mul (A B : Matrix3) (v : Vector3) :
  Mat.mulv A (Mat.mulv B v) = Mat.mulv (Mat.mul A B) v.
Proof. apply vec_eq; simpl; ring. Qed.

Lemma mat_mulv_identity (v : Vector3) : Mat.mulv Mat.identity v = v.
Proof. destruct v. apply vec_eq; simpl; ring. Qed.

(** C7: [relativeTransform] on matrices returns [R1^T R2] and
    [R1^T (t2 - t1)], and when [R1] and [R2] are rotations the second rigid
    transform is the first one composed with the returned one; the overload
    on transforms gives the same. *)
Theorem relativeTransform_spec (R1 : Matrix3) (t1 : Vector3)
        (R2 : Matrix3) (t2 : Vector3) :
  Geometry.relativeTransform R1 t1 R2 t2
  = (Mat.mul (Mat.transpose R1) R2,
     Mat.mulv (Mat.transpose R1) (Vec.sub t2 t1)) /\
  (Mat.is_rotation R1 -> Mat.is_rotation R2 ->
   (let (Rr, tr) := Geometry.relativeTransform R1 t1 R2 t2 in
    Geometry.iso_mul (Geometry.mkIso R1 t1) (Geometry.mkIso Rr tr)
    = Geometry.mkIso R2 t2) /\
   (let (Rr, tr) := Geometry.relativeTransform_iso
                      (Geometry.mkIso R1 t1) (Geometry.mkIso R2 t2) in
    Geometry.iso_mul (Geometry.mkIso R1 t1) (Geometry.mkIso Rr tr)
    = Geometry.mkIso R2 t2)).
Proof.
  split; [reflexivity|].
  intros H1 _.
  assert (E : Geometry.iso_mul (Geometry.mkIso R1 t1)
                (Geometry.mkIso (Mat.mul (Mat.transpose R1) R2)
                   (Mat.mulv (Mat.transpose R1) (Vec.sub t2 t1)))
              = Geometry.mkIso R2 t2).
  { unfold Geometry.iso_mul. simpl Geometry.linear. simpl Geometry.translation.
    rewrite <- mat_mul_assoc, mat_mulv_mul.
    rewrite (rotation_mul_transpose R1 H1).
    rewrite mat_mul_identity_l, mat_mulv_identity.
    f_equal. destruct t1, t2. apply vec_eq; simpl; ring. }
  split; exact E.
Qed.

Lemma quarter_turn_is_rotation :
  Mat.is_rotation (mkMat 0 (-1) 0  1 0 0  0 0 1).
Proof.
  split.
  - apply mat_eq; simpl; lra.
  - unfold Mat.det; simpl; lra.
Qed.

Lemma identity_is_rotation : Mat.is_rotation Mat.identity.
Proof.
  split.
  - apply mat_eq; simpl; lra.
  - unfold Mat.det; simpl; lra.
Qed.

Lemma relativeTransform_spec_witness :
  let (Rr, tr) := Geometry.relativeTransform
                    (mkMat 0 (-1) 0  1 0 0  0 0 1) (mkVec 1 0 0)
                    Mat.identity (mkVec 0 2 0) in
  Geometry.iso_mul (Geometry.mkIso (mkMat 0 (-1) 0  1 0 0  0 0 1) (mkVec 1 0 0))
                   (Geometry.mkIso Rr tr)
  = Geometry.mkIso Mat.identity (mkVec 0 2 0).
Proof.
  exact (proj1 (proj2 (relativeTransform_spec
                         (mkMat 0 (-1) 0  1 0 0  0 0 1) (mkVec 1 0 0)
                         Mat.identity (mkVec 0 2 0))
                 quarter_turn_is_rotation identity_is_rotation)).
Defined.

(** *** Quaternion algebra *)

Lemma quat_sqn_mul (a b : Quaternion3f) :
  Quat.squaredNorm (Quat.mul a b) = Quat.squaredNorm a * Quat.squaredNorm b.
Proof. unfold Quat.squaredNorm, Quat.mul; simpl; ring. Qed.

Lemma quat_unit_mul (a b : Quaternion3f) :
  Quat.is_unit a -> Quat.is_unit b -> Quat.is_unit (Quat.mul a b).
Proof.
  unfold Quat.is_unit. intros Ha Hb. rewrite quat_sqn_mul, Ha, Hb. ring.
Qed.

Lemma quat_unit_conj (a : Quaternion3f) :
  Quat.is_unit a -> Quat.is_unit (Quat.conj a).
Proof.
  unfold Quat.is_unit, Quat.squaredNorm, Quat.conj; simpl. intros <-. ring.
Qed.

Lemma quat_conj_conj (a : Quaternion3f) : Quat.conj (Quat.conj a) = a.
Proof. destruct a. apply quat_eq; simpl; ring. Qed.

Lemma quat_mul_conj_r (a : Quaternion3f) :
  Quat.is_unit a -> Quat.mul a (Quat.conj a) = Quat.identity.
Proof.
  unfold Quat.is_unit, Quat.squaredNorm. intros Ha.
  apply quat_eq; simpl; try ring. rewrite <- Ha. ring.
Qed.

Lemma quat_mul_conj_l (a : Quaternion3f) :
  Quat.is_unit a -> Quat.mul (Quat.conj a) a = Quat.identity.
Proof.
  unfold Quat.is_unit, Quat.squaredNorm. intros Ha.
  apply quat_eq; simpl; try ring. rewrite <- Ha. ring.
Qed.

(** The closed form differs from the sandwich product by a multiple of the
    vector that vanishes on unit quaternions. *)
Lemma quat_transform_sandwich_gen (a : Quaternion3f) (v : Vector3) :
  Quat.transform a v
  = Vec.add (Quat.sandwich a v)
            (mkVec ((1 - Quat.squaredNorm a) * vx v)
                   ((1 - Quat.squaredNorm a) * vy v)
                   ((1 - Quat.squaredNorm a) * vz v)).
Proof.
  unfold Quat.transform, Quat.sandwich, Quat.squaredNorm.
  apply vec_eq; simpl; ring.
Qed.

Lemma quat_transform_sandwich (a : Quaternion3f) (v : Vector3) :
  Quat.is_unit a -> Quat.transform a v = Quat.sandwich a v.
Proof.
  intros Ha. rewrite quat_transform_sandwich_gen.
  unfold Quat.is_unit in Ha. rewrite Ha.
  apply vec_eq; simpl; ring.
Qed.

Lemma quat_sandwich_mul (a b : Quaternion3f) (v : Vector3) :
  Quat.sandwich (Quat.mul a b) v = Quat.sandwich a (Quat.sandwich b v).
Proof. unfold Quat.sandwich. apply vec_eq; simpl; ring. Qed.

Lemma quat_transform_mul (a b : Quaternion3f) (v : Vector3) :
  Quat.is_unit a -> Quat.is_unit b ->
  Quat.transform (Quat.mul a b) v = Quat.transform a (Quat.transform b v).
Proof.
  intros Ha Hb.
  rewrite (quat_transform_sandwich _ _ (quat_unit_mul _ _ Ha Hb)).
  rewrite (quat_transform_sandwich b v Hb).
  rewrite (quat_transform_sandwich a _ Ha).
  apply quat_sandwich_mul.
Qed.

Lemma quat_transform_add (a : Quaternion3f) (u v : Vector3) :
  Quat.transform a (Vec.add u v)
  = Vec.add (Quat.transform a u) (Quat.transform a v).
Proof. unfold Quat.transform. apply vec_eq; simpl; ring. Qed.

Lemma quat_transform_sub (a : Quaternion3f) (u v : Vector3) :
  Quat.transform a (Vec.sub u v)
  = Vec.add (Quat.transform a u) (Quat.transform a (Vec.neg v)).
Proof. unfold Quat.transform. apply vec_eq; simpl; ring. Qed.

Lemma quat_transform_neg (a : Quaternion3f) (v : Vector3) :
  Quat.transform a (Vec.neg v) = Vec.neg (Quat.transform a v).
Proof. unfold Quat.transform. apply vec_eq; simpl; ring. Qed.

Lemma quat_transform_identity (v : Vector3) :
  Quat.transform Quat.identity v = v.
Proof. destruct v. unfold Quat.transform. apply vec_eq; simpl; ring. Qed.

Lemma quat_transform_conj_cancel (a : Quaternion3f) (v : Vector3) :
  Quat.is_unit a -> Quat.transform (Quat.conj a) (Quat.transform a v) = v.
Proof.
  intros Ha.
  rewrite <- (quat_transform_mul _ _ v (quat_unit_conj a Ha) Ha).
  rewrite (quat_mul_conj_l a Ha). apply quat_transform_identity.
Qed.

Lemma quat_transform_cancel_conj (a : Quaternion3f) (v : Vector3) :
  Quat.is_unit a -> Quat.transform a (Quat.transform (Quat.conj a) v) = v.
Proof.
  intros Ha.
  rewrite <- (quat_transform_mul _ _ v Ha (quat_unit_conj a Ha)).
  rewrite (quat_mul_conj_r a Ha). apply quat_transform_identity.
Qed.

Lemma vec_add_assoc (u v w : Vector3) :
  Vec.add (Vec.add u v) w = Vec.add u (Vec.add v w).
Proof. apply vec_eq; simpl; ring. Qed.

Lemma vec_add_neg_l (v : Vector3) : Vec.add (Vec.neg v) v = Vec.zero.
Proof. apply vec_eq; simpl; ring. Qed.

Lemma vec_add_neg_r (v : Vector3) : Vec.add v (Vec.neg v) = Vec.zero.
Proof. apply vec_eq; simpl; ring. Qed.

Lemma tf_isIdentity_intro (t : Transform3f) :
  tf_q t = Quat.identity -> tf_T t = Vec.zero -> Tf.isIdentity t = true.
Proof.
  intros Hq HT. unfold Tf.isIdentity, Quat.isIdentity, Vec.isZero.
  rewrite Hq, HT. simpl.
  destruct (Req_dec_T 1 1) as [_|n]; [|exfalso; apply n; reflexivity].
  destruct (Req_dec_T 0 0) as [_|n]; [|exfalso; apply n; reflexivity].
  reflexivity.
Qed.

(** *** Composition, inversion *)

(** C1: for transforms with unit quaternions, applying the product
    [T1 * T2] to a vector is applying [T2] and then [T1]. *)
Theorem mul_transform (R0 : Matrix3f) (T1 T2 : Transform3f) (v : Vec3f) :
  Quat.is_unit (tf_q T1) -> Quat.is_unit (tf_q T2) ->
  Tf.transform (Tf.mul R0 T1 T2) v = Tf.transform T1 (Tf.transform T2 v).
Proof.
  intros H1 H2. unfold Tf.transform, Tf.mul, Tf.ctor_qT. simpl.
  rewrite (quat_transform_mul _ _ v H1 H2).
  rewrite quat_transform_add.
  symmetry. apply vec_add_assoc.
Qed.

Lemma mul_transform_witness :
  Tf.transform
    (Tf.mul Mat.identity
       (Tf.ctor_qT Mat.identity (mkQuat (3/5) (4/5) 0 0) (mkVec 1 2 3))
       (Tf.ctor_qT Mat.identity (mkQuat 0 0 (5/13) (12/13)) (mkVec 4 5 6)))
    (mkVec 1 1 1)
  = Tf.transform
      (Tf.ctor_qT Mat.identity (mkQuat (3/5) (4/5) 0 0) (mkVec 1 2 3))
      (Tf.transform
         (Tf.ctor_qT Mat.identity (mkQuat 0 0 (5/13) (12/13)) (mkVec 4 5 6))
         (mkVec 1 1 1)).
Proof.
  apply mul_transform; unfold Quat.is_unit, Quat.squaredNorm; simpl; lra.
Defined.

(** C2: [inverse] conjugates the quaternion and stores the conjugate's
    rotation of the negated old translation; for a unit quaternion the
    product of a transform and its inverse, in either order, has the
    identity quaternion and the zero translation, so [isIdentity] holds
    of it. *)
Theorem inverse_mul_identity (R0 : Matrix3f) (t : Transform3f) :
  Quat.is_unit (tf_q t) ->
  tf_q (Tf.inverse t) = Quat.conj (tf_q t) /\
  tf_T (Tf.inverse t) = Quat.transform (Quat.conj (tf_q t)) (Vec.neg (tf_T t)) /\
  tf_q (Tf.mul R0 t (Tf.inverse t)) = Quat.identity /\
  tf_T (Tf.mul R0 t (Tf.inverse t)) = Vec.zero /\
  Tf.isIdentity (Tf.mul R0 t (Tf.inverse t)) = true /\
  tf_q (Tf.mul R0 (Tf.inverse t) t) = Quat.identity /\
  tf_T (Tf.mul R0 (Tf.inverse t) t) = Vec.zero /\
  Tf.isIdentity (Tf.mul R0 (Tf.inverse t) t) = true.
Proof.
  intros Hu.
  assert (Hq1 : tf_q (Tf.mul R0 t (Tf.inverse t)) = Quat.identity).
  { simpl. apply quat_mul_conj_r, Hu. }
  assert (HT1 : tf_T (Tf.mul R0 t (Tf.inverse t)) = Vec.zero).
  { simpl. rewrite (quat_transform_cancel_conj _ _ Hu). apply vec_add_neg_l. }
  assert (Hq2 : tf_q (Tf.mul R0 (Tf.inverse t) t) = Quat.identity).
  { simpl. apply quat_mul_conj_l, Hu. }
  assert (HT2 : tf_T (Tf.mul R0 (Tf.inverse t) t) = Vec.zero).
  { simpl. rewrite quat_transform_neg. apply vec_add_neg_r. }
  repeat split; try assumption; try reflexivity.
  - apply tf_isIdentity_intro; assumption.
  - apply tf_isIdentity_intro; assumption.
Qed.

Lemma inverse_mul_identity_witness :
  Tf.isIdentity
    (Tf.mul Mat.identity
       (Tf.ctor_qT Mat.identity (mkQuat (3/5) (4/5) 0 0) (mkVec 1 2 3))
       (Tf.inverse
          (Tf.ctor_qT Mat.identity (mkQuat (3/5) (4/5) 0 0) (mkVec 1 2 3))))
  = true.
Proof.
  refine (proj1 (proj2 (proj2 (proj2 (proj2
    (inverse_mul_identity Mat.identity
       (Tf.ctor_qT Mat.identity (mkQuat (3/5) (4/5) 0 0) (mkVec 1 2 3)) _)))))).
  unfold Quat.is_unit, Quat.squaredNorm; simpl; lra.
Defined.

(** C3: [inverseTimes] leaves its receiver as it was, and for unit
    quaternions the transform it returns acts on a vector as the second
    transform followed by the inverse of the first. *)
Theorem inverseTimes_spec (R0 : Matrix3f) (T1 T2 : Transform3f) :
  snd (Tf.inverseTimes R0 T1 T2) = T1 /\
  (Quat.is_unit (tf_q T1) -> Quat.is_unit (tf_q T2) ->
   forall v, Tf.transform (fst (Tf.inverseTimes R0 T1 T2)) v
             = Tf.transform (Tf.inverse T1) (Tf.transform T2 v)).
Proof.
  split; [reflexivity|].
  intros H1 H2 v. unfold Tf.transform. simpl.
  rewrite (quat_transform_mul _ _ v (quat_unit_conj _ H1) H2).
  rewrite quat_transform_add, quat_transform_sub.
  symmetry. apply vec_add_assoc.
Qed.

Lemma inverseTimes_spec_witness :
  Tf.transform
    (fst (Tf.inverseTimes Mat.identity
            (Tf.ctor_qT Mat.identity (mkQuat (3/5) (4/5) 0 0) (mkVec 1 2 3))
            (Tf.ctor_qT Mat.identity (mkQuat 0 0 (5/13) (12/13)) (mkVec 4 5 6))))
    (mkVec 1 1 1)
  = Tf.transform
      (Tf.inverse
         (Tf.ctor_qT Mat.identity (mkQuat (3/5) (4/5) 0 0) (mkVec 1 2 3)))
      (Tf.transform
         (Tf.ctor_qT Mat.identity (mkQuat 0 0 (5/13) (12/13)) (mkVec 4 5 6))
         (mkVec 1 1 1)).
Proof.
  apply (proj2 (inverseTimes_spec Mat.identity
            (Tf.ctor_qT Mat.identity (mkQuat (3/5) (4/5) 0 0) (mkVec 1 2 3))
            (Tf.ctor_qT Mat.identity (mkQuat 0 0 (5/13) (12/13)) (mkVec 4 5 6))));
    unfold Quat.is_unit, Quat.squaredNorm; simpl; lra.
Defined.

(** C10: [T1 *= T2] leaves in [T1] the quaternion and the translation of
    the value [T1 * T2] computed from the same initial objects, also when
    the argument is [T1] itself. *)
Theorem mul_assign_agrees_mul (R0 : Matrix3f) (T1 : Transform3f)
        (other : Tf.operand) :
  tf_q (Tf.mul_assign other T1) = tf_q (Tf.mul R0 T1 (Tf.deref other T1)) /\
  tf_T (Tf.mul_assign other T1) = tf_T (Tf.mul R0 T1 (Tf.deref other T1)).
Proof.
  destruct other as [|T2]; split; reflexivity.
Qed.

(** *** eigen *)

(** C8: when the solver does not report success, [eigen] appends its
    message to the diagnostic stream and leaves both outputs as they were;
    the outputs are then those of some successful run, so they do not show
    the failure.  When the solver succeeds the outputs are its eigenvalues
    and eigenvectors. *)
Theorem eigen_soft_failure (solve : Matrix3 -> Geometry.SelfAdjointEigenSolver)
        (m : Matrix3) (st : Geometry.EigenOut) :
  (Geometry.info (solve m) <> Geometry.Success ->
   Geometry.eigen solve m st
   = Geometry.mkEigenOut (Geometry.dout st) (Geometry.vout st)
       (Geometry.cerr st ++ [Geometry.eigen_failure_message]) /\
   exists solve',
     Geometry.info (solve' m) = Geometry.Success /\
     Geometry.dout (Geometry.eigen solve' m st)
     = Geometry.dout (Geometry.eigen solve m st) /\
     Geometry.vout (Geometry.eigen solve' m st)
     = Geometry.vout (Geometry.eigen solve m st)) /\
  (Geometry.info (solve m) = Geometry.Success ->
   Geometry.eigen solve m st
   = Geometry.mkEigenOut (Geometry.eigenvalues (solve m))
       (Geometry.eigenvectors (solve m)) (Geometry.cerr st)).
Proof.
  unfold Geometry.eigen. split.
  - intros Hf.
    assert (E : Geometry.is_Success (Geometry.info (solve m)) = false).
    { destruct (Geometry.info (solve m)); [congruence| | |]; reflexivity. }
    rewrite E. simpl. split; [reflexivity|].
    exists (fun _ => Geometry.mkSolver Geometry.Success
                       (Geometry.dout st) (Geometry.vout st)).
    simpl. repeat split.
  - intros Hs. rewrite Hs. reflexivity.
Qed.

Lemma eigen_soft_failure_witness :
  Geometry.eigen
    (fun _ => Geometry.mkSolver Geometry.NoConvergence Vec.zero Mat.identity)
    (Geometry.hat (mkVec 1 2 3))
    (Geometry.mkEigenOut (mkVec 7 8 9) (Geometry.hat (mkVec 1 1 1)) [])
  = Geometry.mkEigenOut (mkVec 7 8 9) (Geometry.hat (mkVec 1 1 1))
      [Geometry.eigen_failure_message].
Proof.
  refine (proj1 (proj1 (eigen_soft_failure
    (fun _ => Geometry.mkSolver Geometry.NoConvergence Vec.zero Mat.identity)
    (Geometry.hat (mkVec 1 2 3))
    (Geometry.mkEigenOut (mkVec 7 8 9) (Geometry.hat (mkVec 1 1 1)) [])) _)).
  simpl. discriminate.
Defined.

(** *** The matrix variant of generateCoordinateSystem *)

(** A column of norm 1 never passes the assertion: its largest coefficient
    is at most 1. *)
Lemma axis_assertion_unit_column (axis : Matrix3) :
  Vec.squaredNorm (Mat.col0 axis) = 1 -> Geometry.axis_assertion axis = false.
Proof.
  destruct axis as [a b c d e f g h i].
  unfold Vec.squaredNorm, Vec.dot, Geometry.axis_assertion, Vec.maxCoeff.
  simpl. intros Hn.
  destruct (Req_dec_T (Rmax a (Rmax d g)) 2) as [E|_]; [|reflexivity].
  exfalso.
  assert (Ha : a <= 1) by nra.
  assert (Hd : d <= 1) by nra.
  assert (Hg : g <= 1) by nra.
  assert (Hm : Rmax a (Rmax d g) <= 1).
  { apply Rmax_lub; [exact Ha|]. apply Rmax_lub; assumption. }
  lra.
Qed.

(** With [NDEBUG] the result does not depend on the assertion. *)
Lemma generateCoordinateSystem_axis_ndebug (axis : Matrix3) :
  Geometry.generateCoordinateSystem_axis true axis
  = Some (Geometry.generateCoordinateSystem_axis_body axis).
Proof. reflexivity. Qed.

(** C9: the column (0,0,1) meets the documented precondition, its z
    coefficient having the largest magnitude, and yet the assertion, which
    compares the largest coefficient with 2, is false on it: a build that
    keeps assertions aborts.  The column (2,0,0) breaks the precondition
    and passes the assertion. *)
Theorem axis_assertion_fails_on_z_axis :
  Geometry.closest_to_z (mkMat 0 0 0  0 0 0  1 0 0) /\
  Geometry.axis_assertion (mkMat 0 0 0  0 0 0  1 0 0) = false /\
  Geometry.generateCoordinateSystem_axis false (mkMat 0 0 0  0 0 0  1 0 0)
  = None /\
  ~ Geometry.closest_to_z (mkMat 2 0 0  0 0 0  0 0 0) /\
  Geometry.axis_assertion (mkMat 2 0 0  0 0 0  0 0 0) = true.
Proof.
  assert (Hf : Geometry.axis_assertion (mkMat 0 0 0  0 0 0  1 0 0) = false).
  { apply axis_assertion_unit_column.
    unfold Vec.squaredNorm, Vec.dot; simpl; lra. }
  split; [|split; [|split; [|split]]].
  - unfold Geometry.closest_to_z; simpl.
    rewrite Rabs_R0, Rabs_R1. lra.
  - exact Hf.
  - unfold Geometry.generateCoordinateSystem_axis. rewrite Hf. reflexivity.
  - unfold Geometry.closest_to_z; simpl. intros [H _].
    rewrite Rabs_R0 in H. rewrite (Rabs_right 2) in H by lra. lra.
  - unfold Geometry.axis_assertion, Vec.maxCoeff; simpl.
    assert (E : Rmax 2 (Rmax 0 0) = 2).
    { apply Rmax_left. unfold Rmax. destruct (Rle_dec 0 0); lra. }
    rewrite E. destruct (Req_dec_T 2 2) as [_|n]; [reflexivity|].
    exfalso; apply n; reflexivity.
Qed.

(** *** Matrix to quaternion and back *)

Section Pivot.

Variable P : R.
Hypothesis P_pos : 0 < P.

Lemma pivot_s_pos : 0 < sqrt P.
Proof. apply sqrt_lt_R0; exact P_pos. Qed.

Lemma pivot_sq : ((1 / 2) * sqrt P) * ((1 / 2) * sqrt P) = P / 4.
Proof.
  replace ((1 / 2) * sqrt P * ((1 / 2) * sqrt P))
    with ((sqrt P * sqrt P) / 4) by field.
  rewrite sqrt_sqrt by lra. reflexivity.
Qed.

Lemma pivot_lin (k : R) :
  ((1 / 2) * sqrt P) * (k * ((1 / 2) / sqrt P)) = k / 4.
Proof. pose proof pivot_s_pos. field. lra. Qed.

Lemma pivot_quad (k1 k2 K : R) :
  k1 * k2 = P * K ->
  (k1 * ((1 / 2) / sqrt P)) * (k2 * ((1 / 2) / sqrt P)) = K / 4.
Proof.
  intros HK. pose proof pivot_s_pos as Hs.
  replace (k1 * ((1 / 2) / sqrt P) * (k2 * ((1 / 2) / sqrt P)))
    with ((k1 * k2) / (4 * (sqrt P * sqrt P))) by (field; lra).
  rewrite sqrt_sqrt by lra. rewrite HK. field. lra.
Qed.

End Pivot.

(** The entries of [toRotation] are linear in the pairwise products of the
    quaternion's components. *)
Lemma toRotation_from_products (w x y z a b c d e f g h i : R) :
  x * x = (1 + a - e - i) / 4 ->
  y * y = (1 - a + e - i) / 4 ->
  z * z = (1 - a - e + i) / 4 ->
  w * x = (h - f) / 4 -> w * y = (c - g) / 4 -> w * z = (d - b) / 4 ->
  x * y = (d + b) / 4 -> x * z = (c + g) / 4 -> y * z = (h + f) / 4 ->
  Quat.toRotation (mkQuat w x y z) = mkMat a b c d e f g h i.
Proof.
  intros. unfold Quat.toRotation. apply mat_eq; simpl; nra.
Qed.

Section RoundTrip.

Variables a b c d e f g h i : R.
Hypothesis rot : Mat.is_rotation (mkMat a b c d e f g h i).

Let W := a + e + i + 1.
Let X := a - e - i + 1.
Let Y := e - i - a + 1.
Let Z := i - a - e + 1.

Ltac rot_facts :=
  destruct (rot_cols _ _ _ _ _ _ _ _ _ rot) as (?Hc & ?Hc & ?Hc & ?Hc & ?Hc & ?Hc);
  destruct (rot_rows _ _ _ _ _ _ _ _ _ rot) as (?Hr & ?Hr & ?Hr & ?Hr & ?Hr & ?Hr);
  destruct (rot_cofactors _ _ _ _ _ _ _ _ _ rot)
    as (?Hk & ?Hk & ?Hk & ?Hk & ?Hk & ?Hk & ?Hk & ?Hk & ?Hk);
  unfold W, X, Y, Z.

Lemma rank1_W :
  (h - f) * (h - f) = W * X /\ (c - g) * (c - g) = W * Y /\
  (d - b) * (d - b) = W * Z /\ (h - f) * (c - g) = W * (d + b) /\
  (h - f) * (d - b) = W * (c + g) /\ (c - g) * (d - b) = W * (h + f).
Proof. rot_facts. repeat split; lra. Qed.

Lemma rank1_X :
  (h - f) * (h - f) = X * W /\ (d + b) * (d + b) = X * Y /\
  (g + c) * (g + c) = X * Z /\ (h - f) * (d + b) = X * (c - g) /\
  (h - f) * (g + c) = X * (d - b) /\ (d + b) * (g + c) = X * (h + f).
Proof. rot_facts. repeat split; lra. Qed.

Lemma rank1_Y :
  (c - g) * (c - g) = Y * W /\ (b + d) * (b + d) = Y * X /\
  (h + f) * (h + f) = Y * Z /\ (c - g) * (b + d) = Y * (h - f) /\
  (c - g) * (h + f) = Y * (d - b) /\ (b + d) * (h + f) = Y * (c + g).
Proof. rot_facts. repeat split; lra. Qed.

Lemma rank1_Z :
  (d - b) * (d - b) = Z * W /\ (c + g) * (c + g) = Z * X /\
  (f + h) * (f + h) = Z * Y /\ (d - b) * (c + g) = Z * (h - f) /\
  (d - b) * (f + h) = Z * (c - g) /\ (c + g) * (f + h) = Z * (d + b).
Proof. rot_facts. repeat split; lra. Qed.

End RoundTrip.

Ltac pivot_product HP F :=
  destruct F as (?F & ?F & ?F & ?F & ?F & ?F);
  match goal with
  | F1 : _, F2 : _, F3 : _, F4 : _, F5 : _, F6 : _ |- _ =>
    first
      [ rewrite (pivot_sq _ HP); lra
      | rewrite (pivot_lin _ HP); lra
      | rewrite Rmult_comm; rewrite (pivot_lin _ HP); lra
      | rewrite (pivot_quad _ HP _ _ _ F1); lra
      | rewrite (pivot_quad _ HP _ _ _ F2); lra
      | rewrite (pivot_quad _ HP _ _ _ F3); lra
      | rewrite (pivot_quad _ HP _ _ _ F4); lra
      | rewrite (pivot_quad _ HP _ _ _ F5); lra
      | rewrite (pivot_quad _ HP _ _ _ F6); lra
      | rewrite Rmult_comm; rewrite (pivot_quad _ HP _ _ _ F4); lra
      | rewrite Rmult_comm; rewrite (pivot_quad _ HP _ _ _ F5); lra
      | rewrite Rmult_comm; rewrite (pivot_quad _ HP _ _ _ F6); lra ]
  end.

(** Converting a rotation matrix to a quaternion and back gives the matrix
    again. *)
Lemma toRotation_fromRotation (M : Matrix3f) :
  Mat.is_rotation M -> Quat.toRotation (Quat.fromRotation M) = M.
Proof.
  destruct M as [a b c d e f g h i]. intros Hrot.
  unfold Quat.fromRotation.
  cbv beta zeta iota delta [m00 m01 m02 m10 m11 m12 m20 m21 m22].
  destruct (Rgt_dec (a + e + i) 0) as [Ht|Ht].
  - assert (HP : 0 < a + e + i + 1) by lra.
    pose proof (rank1_W _ _ _ _ _ _ _ _ _ Hrot) as F.
    apply toRotation_from_products; pivot_product HP F.
  - destruct (Rgt_dec i (Rmax a e)) as [Hi|Hi].
    + assert (HP : 0 < i - a - e + 1).
      { pose proof (Rmax_l a e). pose proof (Rmax_r a e). lra. }
      pose proof (rank1_Z _ _ _ _ _ _ _ _ _ Hrot) as F.
      apply toRotation_from_products; pivot_product HP F.
    + destruct (Rgt_dec e a) as [He|He].
      * assert (HP : 0 < e - i - a + 1).
        { rewrite Rmax_right in Hi by lra. lra. }
        pose proof (rank1_Y _ _ _ _ _ _ _ _ _ Hrot) as F.
        apply toRotation_from_products; pivot_product HP F.
      * assert (HP : 0 < a - e - i + 1).
        { rewrite Rmax_left in Hi by lra. lra. }
        pose proof (rank1_X _ _ _ _ _ _ _ _ _ Hrot) as F.
        apply toRotation_from_products; pivot_product HP F.
Qed.

(** *** The matrix cache *)

Lemma toRotation_identity : Quat.toRotation Quat.identity = Mat.identity.
Proof. unfold Quat.toRotation. apply mat_eq; simpl; ring. Qed.

Lemma constructed_cache_ok (t : Transform3f) :
  Tf.constructed t -> Tf.cache_ok t.
Proof.
  intros Hc. destruct Hc; unfold Tf.cache_ok; simpl; intros Hset;
    try discriminate.
  - symmetry. apply toRotation_identity.
  - symmetry. apply toRotation_fromRotation. assumption.
  - symmetry. apply toRotation_fromRotation. assumption.
  - symmetry. apply toRotation_identity.
Qed.

Lemma step_cache_ok (t t' : Transform3f) :
  Tf.step t t' -> Tf.cache_ok t -> Tf.cache_ok t'.
Proof.
  intros Hs Hok. destruct Hs; unfold Tf.cache_ok in *; simpl; intros Hset;
    try discriminate; try (apply Hok; exact Hset).
  - symmetry. apply toRotation_identity.
  - unfold Tf.getRotation in *.
    destruct (matrix_set t) eqn:E; simpl in *.
    + apply Hok. reflexivity.
    + reflexivity.
  - symmetry. apply toRotation_fromRotation. assumption.
  - symmetry. apply toRotation_fromRotation. assumption.
Qed.

Lemma reachable_cache_ok (t : Transform3f) :
  Tf.reachable t -> Tf.cache_ok t.
Proof.
  induction 1 as [t Hc | t t' _ IH Hs].
  - apply constructed_cache_ok, Hc.
  - apply (step_cache_ok t t' Hs IH).
Qed.

(** C4: every constructed object has a cache that, when flagged as set,
    is the matrix of its quaternion; every member function keeps that; so
    it holds of every reachable object.  Reading the rotation matrix with
    the flag down stores the matrix of the quaternion, raises the flag and
    returns that matrix; with the flag up it returns the cache and changes
    nothing. *)
Theorem cache_consistency :
  (forall t, Tf.constructed t -> Tf.cache_ok t) /\
  (forall t t', Tf.step t t' -> Tf.cache_ok t -> Tf.cache_ok t') /\
  (forall t, Tf.reachable t ->
     Tf.cache_ok t /\ fst (Tf.getRotation t) = Quat.toRotation (tf_q t)) /\
  (forall t, matrix_set t = false ->
     Tf.getRotation t
     = (Quat.toRotation (tf_q t),
        mkTransform3f true (Quat.toRotation (tf_q t)) (tf_T t) (tf_q t))) /\
  (forall t, matrix_set t = true -> Tf.getRotation t = (tf_R t, t)).
Proof.
  split; [exact constructed_cache_ok|].
  split; [exact step_cache_ok|].
  split; [|split].
  - intros t Hr. pose proof (reachable_cache_ok t Hr) as Hok.
    split; [exact Hok|].
    unfold Tf.getRotation. destruct (matrix_set t) eqn:E; simpl.
    + apply Hok, E.
    + reflexivity.
  - intros t E. unfold Tf.getRotation. rewrite E. reflexivity.
  - intros t E. unfold Tf.getRotation. rewrite E. reflexivity.
Qed.

Lemma cache_consistency_witness :
  Tf.cache_ok (Tf.inverse
                 (Tf.setRotation (mkMat 0 (-1) 0  1 0 0  0 0 1)
                    (Tf.ctor_default Mat.identity Vec.zero))) /\
  Tf.cache_ok (Tf.setRotation (mkMat 0 (-1) 0  1 0 0  0 0 1)
                 (Tf.ctor_default Mat.identity Vec.zero)).
Proof.
  assert (Hr : Tf.reachable
                 (Tf.setRotation (mkMat 0 (-1) 0  1 0 0  0 0 1)
                    (Tf.ctor_default Mat.identity Vec.zero))).
  { eapply Tf.r_step.
    - apply Tf.r_constructed, Tf.c_default.
    - apply Tf.s_setRotation, quarter_turn_is_rotation. }
  split.
  - apply (proj1 (proj1 (proj2 (proj2 cache_consistency)) _
                   (Tf.r_step _ _ Hr (Tf.s_inverse _)))).
  - apply (proj1 (proj1 (proj2 (proj2 cache_consistency)) _ Hr)).
Defined.

(** ** Further properties of geometry.h *)

(** X1: the matrix built by [hat] acts on a vector as the cross product
    with the vector it was built from. *)
Theorem hat_is_cross (a x : Vector3) :
  Mat.mulv (Geometry.hat a) x = Vec.cross a x.
Proof. apply vec_eq; simpl; ring. Qed.

(** X2: the matrix built by [hat] is skew-symmetric, its transpose being
    the matrix of the negated vector, it sends its own vector to zero, and
    two vectors with the same matrix are equal. *)
Theorem hat_skew (a b : Vector3) :
  Mat.transpose (Geometry.hat a) = Geometry.hat (Vec.neg a) /\
  Mat.mulv (Geometry.hat a) a = Vec.zero /\
  (Geometry.hat a = Geometry.hat b -> a = b).
Proof.
  split; [|split].
  - apply mat_eq; simpl; ring.
  - apply vec_eq; simpl; ring.
  - unfold Geometry.hat. intros H.
    injection H as H1 H2 H3 H4 H5 H6.
    apply vec_eq; lra.
Qed.

Lemma hat_skew_witness : mkVec 1 2 3 = mkVec 1 2 3.
Proof.
  apply (proj2 (proj2 (hat_skew (mkVec 1 2 3) (mkVec 1 2 3)))).
  reflexivity.
Defined.

(** X3: [triple] is the determinant of the matrix whose rows are its
    arguments; it is unchanged by a cyclic shift of the arguments, changes
    sign when two of them are exchanged and vanishes when two are equal. *)
Theorem triple_determinant (x y z : Vector3) :
  Geometry.triple x y z
  = Mat.det (mkMat (vx x) (vy x) (vz x)
                   (vx y) (vy y) (vz y)
                   (vx z) (vy z) (vz z)) /\
  Geometry.triple x y z = Geometry.triple y z x /\
  Geometry.triple x y z = - Geometry.triple y x z /\
  Geometry.triple x y z = - Geometry.triple x z y /\
  Geometry.triple x x z = 0 /\ Geometry.triple x y y = 0.
Proof.
  unfold Geometry.triple, Vec.dot, Vec.cross, Mat.det. simpl.
  repeat split; ring.
Qed.

Lemma squaredNorm_pos_iff (v : Vector3) :
  Vec.squaredNorm v > 0 <-> v <> Vec.zero.
Proof.
  destruct v as [x y z]. unfold Vec.squaredNorm, Vec.dot, Vec.zero. simpl.
  split.
  - intros H E. injection E as -> -> ->. lra.
  - intros H.
    destruct (Req_dec x 0) as [Hx|Hx]; [|nra].
    destruct (Req_dec y 0) as [Hy|Hy]; [|nra].
    destruct (Req_dec z 0) as [Hz|Hz]; [|nra].
    exfalso. apply H. subst. reflexivity.
Qed.

(** X4: [normalize] signals [false] exactly on the zero vector. *)
Theorem normalize_signal_false_iff_zero (v : Vector3) :
  snd (Geometry.normalize v) = false <-> v = Vec.zero.
Proof.
  unfold Geometry.normalize.
  destruct (Rgt_dec (Vec.squaredNorm v) 0) as [Hp|Hn]; simpl.
  - split; [discriminate|].
    intros E. apply squaredNorm_pos_iff in Hp. contradiction.
  - split; [|reflexivity]. intros _.
    destruct v as [x y z]. unfold Vec.squaredNorm, Vec.dot in Hn. simpl in Hn.
    assert (Hx : x = 0) by nra.
    assert (Hy : y = 0) by nra.
    assert (Hz : z = 0) by nra.
    subst. reflexivity.
Qed.

Lemma normalize_signal_false_iff_zero_witness :
  snd (Geometry.normalize (mkVec 0 0 0)) = false.
Proof.
  apply (proj2 (normalize_signal_false_iff_zero (mkVec 0 0 0))).
  reflexivity.
Defined.

(** X5: on a vector that is not zero [normalize] returns a vector of norm 1,
    and normalising that vector again returns it unchanged with the signal
    [true]. *)
Theorem normalize_unit_idempotent (v : Vector3) :
  v <> Vec.zero ->
  Vec.norm (fst (Geometry.normalize v)) = 1 /\
  Geometry.normalize (fst (Geometry.normalize v))
  = (fst (Geometry.normalize v), true).
Proof.
  intros Hv. apply squaredNorm_pos_iff in Hv.
  assert (Hs : 0 < sqrt (Vec.squaredNorm v)) by (apply sqrt_lt_R0; lra).
  assert (Hss : sqrt (Vec.squaredNorm v) * sqrt (Vec.squaredNorm v)
                = Vec.squaredNorm v) by (apply sqrt_sqrt; lra).
  assert (E : fst (Geometry.normalize v)
              = Vec.div v (sqrt (Vec.squaredNorm v))).
  { unfold Geometry.normalize.
    destruct (Rgt_dec (Vec.squaredNorm v) 0); [reflexivity|contradiction]. }
  rewrite E.
  assert (Hn : Vec.squaredNorm (Vec.div v (sqrt (Vec.squaredNorm v))) = 1).
  { set (n := sqrt (Vec.squaredNorm v)) in *.
    transitivity (Vec.squaredNorm v / (n * n)).
    - unfold Vec.squaredNorm, Vec.dot, Vec.div; simpl. field. lra.
    - rewrite Hss. field. lra. }
  split.
  - unfold Vec.norm. rewrite Hn. apply sqrt_1.
  - unfold Geometry.normalize. rewrite Hn.
    destruct (Rgt_dec 1 0) as [_|n]; [|exfalso; lra].
    f_equal. rewrite sqrt_1.
    apply vec_eq; simpl; field; lra.
Qed.

Lemma normalize_unit_idempotent_witness :
  Vec.norm (fst (Geometry.normalize (mkVec 3 4 0))) = 1.
Proof.
  apply (proj1 (normalize_unit_idempotent (mkVec 3 4 0)
                  ltac:(unfold Vec.zero; intros E; injection E; lra))).
Defined.

Lemma frame_den_xz_nonzero (x y z : R) :
  mkVec x y z <> Vec.zero -> Rabs x >= Rabs y -> 0 < x * x + z * z.
Proof.
  intros Hw H.
  destruct (Req_dec x 0) as [Hx|Hx]; [|nra].
  destruct (Req_dec z 0) as [Hz|Hz]; [|nra].
  exfalso. apply Hw. subst x z. rewrite Rabs_R0 in H.
  assert (Hy : y = 0).
  { destruct (Req_dec y 0) as [|Hy]; [assumption|].
    apply Rabs_pos_lt in Hy. lra. }
  subst y. reflexivity.
Qed.

Lemma frame_den_yz_nonzero (x y z : R) :
  ~ Rabs x >= Rabs y -> 0 < y * y + z * z.
Proof.
  intros H.
  destruct (Req_dec y 0) as [Hy|Hy]; [|nra].
  exfalso. apply H. subst y. rewrite Rabs_R0. apply Rle_ge, Rabs_pos.
Qed.

Lemma frame_of_nonzero (w : Vector3) :
  w <> Vec.zero ->
  let (u, v) := Geometry.generateCoordinateSystem w in
  Vec.norm u = 1 /\ Vec.dot u w = 0 /\ v = Vec.cross w u /\
  Vec.dot v w = 0 /\ Vec.dot u v = 0 /\
  Vec.squaredNorm v = Vec.squaredNorm w /\ Vec.cross u v = w.
Proof.
  destruct w as [x y z]. intros Hw.
  unfold Geometry.generateCoordinateSystem. simpl.
  unfold Vec.norm, Vec.squaredNorm, Vec.dot, Vec.cross. simpl.
  destruct (Rge_dec (Rabs x) (Rabs y)) as [Hb|Hb].
  - pose proof (frame_den_xz_nonzero x y z Hw Hb) as Hd.
    pose proof (inv_sqrt_sq _ Hd) as Hi.
    set (i := 1 / sqrt (x * x + z * z)) in *. simpl.
    split; [|split; [|split; [|split; [|split; [|split]]]]].
    + replace (_ + _ + _) with (i * i * (x * x + z * z)) by ring.
      rewrite Hi. apply sqrt_1.
    + ring.
    + apply vec_eq; simpl; ring.
    + ring.
    + ring.
    + replace (_ + _ + _)
        with (i * i * (x * x + z * z) * (x * x + y * y + z * z)) by ring.
      rewrite Hi. ring.
    + apply vec_eq; simpl.
      * replace (_ - _) with (x * (i * i * (x * x + z * z))) by ring.
        rewrite Hi. ring.
      * replace (_ - _) with (y * (i * i * (x * x + z * z))) by ring.
        rewrite Hi. ring.
      * replace (_ - _) with (z * (i * i * (x * x + z * z))) by ring.
        rewrite Hi. ring.
  - pose proof (frame_den_yz_nonzero x y z Hb) as Hd.
    pose proof (inv_sqrt_sq _ Hd) as Hi.
    set (i := 1 / sqrt (y * y + z * z)) in *. simpl.
    split; [|split; [|split; [|split; [|split; [|split]]]]].
    + replace (_ + _ + _) with (i * i * (y * y + z * z)) by ring.
      rewrite Hi. apply sqrt_1.
    + ring.
    + apply vec_eq; simpl; ring.
    + ring.
    + ring.
    + replace (_ + _ + _)
        with (i * i * (y * y + z * z) * (x * x + y * y + z * z)) by ring.
      rewrite Hi. ring.
    + apply vec_eq; simpl.
      * replace (_ - _) with (x * (i * i * (y * y + z * z))) by ring.
        rewrite Hi. ring.
      * replace (_ - _) with (y * (i * i * (y * y + z * z))) by ring.
        rewrite Hi. ring.
      * replace (_ - _) with (z * (i * i * (y * y + z * z))) by ring.
        rewrite Hi. ring.
Qed.

(** X6: for every vector [w] other than zero, of any length, the vector
    variant of [generateCoordinateSystem] returns a unit [u] orthogonal to
    [w] and [v = w x u], so that [v] is orthogonal to both, as long as [w],
    and [u x v = w]. *)
Theorem generateCoordinateSystem_nonzero (w : Vector3) :
  w <> Vec.zero ->
  let (u, v) := Geometry.generateCoordinateSystem w in
  Vec.norm u = 1 /\ Vec.dot u w = 0 /\ v = Vec.cross w u /\
  Vec.dot v w = 0 /\ Vec.dot u v = 0 /\
  Vec.squaredNorm v = Vec.squaredNorm w /\ Vec.cross u v = w.
Proof. exact (frame_of_nonzero w). Qed.

Lemma generateCoordinateSystem_nonzero_witness :
  let (u, v) := Geometry.generateCoordinateSystem (mkVec 0 3 4) in
  Vec.norm u = 1 /\ Vec.dot u (mkVec 0 3 4) = 0 /\
  v = Vec.cross (mkVec 0 3 4) u /\
  Vec.dot v (mkVec 0 3 4) = 0 /\ Vec.dot u v = 0 /\
  Vec.squaredNorm v = Vec.squaredNorm (mkVec 0 3 4) /\
  Vec.cross u v = mkVec 0 3 4.
Proof.
  apply (generateCoordinateSystem_nonzero (mkVec 0 3 4)).
  unfold Vec.zero; intros E; injection E; lra.
Defined.

Lemma axis_body_columns (axis : Matrix3) :
  let (u, v) := Geometry.generateCoordinateSystem (Mat.col0 axis) in
  Mat.col0 (Geometry.generateCoordinateSystem_axis_body axis) = Mat.col0 axis /\
  Mat.col1 (Geometry.generateCoordinateSystem_axis_body axis) = u /\
  Mat.col2 (Geometry.generateCoordinateSystem_axis_body axis) = v.
Proof.
  destruct axis as [a b c d e f g h i].
  unfold Geometry.generateCoordinateSystem,
    Geometry.generateCoordinateSystem_axis_body, Mat.col0, Mat.col1, Mat.col2.
  simpl.
  rewrite !Rmult_1_r.
  destruct (Rge_dec (Rabs a) (Rabs d)); simpl; repeat split.
Qed.

(** X7: the matrix variant computes what the vector variant computes on
    the first column: it leaves column 0 as it is and stores [u] in column 1
    and [v] in column 2. *)
Theorem generateCoordinateSystem_axis_agrees (axis : Matrix3) :
  let (u, v) := Geometry.generateCoordinateSystem (Mat.col0 axis) in
  Mat.col0 (Geometry.generateCoordinateSystem_axis_body axis) = Mat.col0 axis /\
  Mat.col1 (Geometry.generateCoordinateSystem_axis_body axis) = u /\
  Mat.col2 (Geometry.generateCoordinateSystem_axis_body axis) = v.
Proof. exact (axis_body_columns axis). Qed.

Lemma mat_det_cols (M : Matrix3) :
  Mat.det M = Vec.dot (Mat.col0 M) (Vec.cross (Mat.col1 M) (Mat.col2 M)).
Proof. unfold Mat.det, Vec.dot, Vec.cross, Mat.col0, Mat.col1, Mat.col2. simpl. ring. Qed.

Lemma mat_gram_cols (M : Matrix3) :
  Mat.mul (Mat.transpose M) M
  = mkMat (Vec.dot (Mat.col0 M) (Mat.col0 M)) (Vec.dot (Mat.col0 M) (Mat.col1 M))
          (Vec.dot (Mat.col0 M) (Mat.col2 M))
          (Vec.dot (Mat.col1 M) (Mat.col0 M)) (Vec.dot (Mat.col1 M) (Mat.col1 M))
          (Vec.dot (Mat.col1 M) (Mat.col2 M))
          (Vec.dot (Mat.col2 M) (Mat.col0 M)) (Vec.dot (Mat.col2 M) (Mat.col1 M))
          (Vec.dot (Mat.col2 M) (Mat.col2 M)).
Proof. apply mat_eq; reflexivity. Qed.

Lemma vec_dot_comm (u v : Vector3) : Vec.dot u v = Vec.dot v u.
Proof. unfold Vec.dot. ring. Qed.

(** X8: when the first column has norm 1, the matrix the matrix variant
    leaves is a rotation matrix: its columns are orthonormal and its
    determinant is 1.  With assertions compiled out that matrix is the
    result. *)
Theorem generateCoordinateSystem_axis_rotation (axis : Matrix3) :
  Vec.squaredNorm (Mat.col0 axis) = 1 ->
  Geometry.generateCoordinateSystem_axis true axis
  = Some (Geometry.generateCoordinateSystem_axis_body axis) /\
  Mat.is_rotation (Geometry.generateCoordinateSystem_axis_body axis).
Proof.
  intros Hn. split; [reflexivity|].
  assert (Hw : Mat.col0 axis <> Vec.zero).
  { apply squaredNorm_pos_iff. lra. }
  pose proof (frame_of_nonzero _ Hw) as HF.
  pose proof (axis_body_columns axis) as HA.
  destruct (Geometry.generateCoordinateSystem (Mat.col0 axis)) as [u v].
  destruct HA as (A0 & A1 & A2).
  destruct HF as (Fu & Fuw & Fv & Fvw & Fuv & Fvn & Fc).
  assert (Fuu : Vec.dot u u = 1).
  { unfold Vec.norm in Fu. fold (Vec.squaredNorm u).
    rewrite <- (sqrt_sqrt (Vec.squaredNorm u)).
    - rewrite Fu. ring.
    - unfold Vec.squaredNorm, Vec.dot. nra. }
  unfold Vec.squaredNorm in Fvn, Hn.
  split.
  - rewrite mat_gram_cols, A0, A1, A2.
    rewrite (vec_dot_comm (Mat.col0 axis) u), (vec_dot_comm (Mat.col0 axis) v).
    rewrite (vec_dot_comm v u).
    rewrite Fuu, Fuw, Fvw, Fuv, Fvn, Hn. reflexivity.
  - rewrite mat_det_cols, A0, A1, A2, Fc. exact Hn.
Qed.

Lemma generateCoordinateSystem_axis_rotation_witness :
  Mat.is_rotation
    (Geometry.generateCoordinateSystem_axis_body (mkMat 0 7 7  0 7 7  1 7 7)).
Proof.
  apply (proj2 (generateCoordinateSystem_axis_rotation
                  (mkMat 0 7 7  0 7 7  1 7 7)
                  ltac:(unfold Vec.squaredNorm, Vec.dot; simpl; lra))).
Defined.

(** X9: a build that keeps assertions lets the matrix variant run exactly
    when the largest coefficient of the first column is 2, so it aborts on
    every matrix whose first column has norm 1. *)
Theorem generateCoordinateSystem_axis_debug (axis : Matrix3) :
  (Geometry.generateCoordinateSystem_axis false axis <> None <->
   Vec.maxCoeff (Mat.col0 axis) = 2) /\
  (Vec.squaredNorm (Mat.col0 axis) = 1 ->
   Geometry.generateCoordinateSystem_axis false axis = None).
Proof.
  unfold Geometry.generateCoordinateSystem_axis. simpl. split.
  - unfold Geometry.axis_assertion.
    destruct (Req_dec_T (Vec.maxCoeff (Mat.col0 axis)) 2) as [E|E].
    + split; [intros _; exact E | intros _; discriminate].
    + split; [intros H; exfalso; apply H; reflexivity | intros H; contradiction].
  - intros Hn. rewrite (axis_assertion_unit_column axis Hn). reflexivity.
Qed.

Lemma generateCoordinateSystem_axis_debug_witness :
  Geometry.generateCoordinateSystem_axis false (mkMat 0 7 7  0 7 7  1 7 7)
  = None.
Proof.
  apply (proj2 (generateCoordinateSystem_axis_debug (mkMat 0 7 7  0 7 7  1 7 7))).
  unfold Vec.squaredNorm, Vec.dot; simpl; lra.
Defined.

Lemma mat_transpose_mul (A B : Matrix3) :
  Mat.transpose (Mat.mul A B) = Mat.mul (Mat.transpose B) (Mat.transpose A).
Proof. apply mat_eq; simpl; ring. Qed.

Lemma mat_transpose_transpose (A : Matrix3) :
  Mat.transpose (Mat.transpose A) = A.
Proof. destruct A. reflexivity. Qed.

Lemma mat_det_mul (A B : Matrix3) :
  Mat.det (Mat.mul A B) = Mat.det A * Mat.det B.
Proof. unfold Mat.det; simpl; ring. Qed.

Lemma mat_det_transpose (A : Matrix3) : Mat.det (Mat.transpose A) = Mat.det A.
Proof. unfold Mat.det; simpl; ring. Qed.

Lemma mat_mul_identity_r (A : Matrix3) : Mat.mul A Mat.identity = A.
Proof. destruct A. apply mat_eq; simpl; ring. Qed.

Lemma relative_rotation (R1 R2 : Matrix3) :
  Mat.is_rotation R1 -> Mat.is_rotation R2 ->
  Mat.is_rotation (Mat.mul (Mat.transpose R1) R2).
Proof.
  intros H1 H2. split.
  - rewrite mat_transpose_mul, mat_transpose_transpose.
    rewrite mat_mul_assoc, <- (mat_mul_assoc R1).
    rewrite (rotation_mul_transpose R1 H1), mat_mul_identity_l.
    exact (proj1 H2).
  - rewrite mat_det_mul, mat_det_transpose.
    rewrite (proj2 H1), (proj2 H2). ring.
Qed.

(** X10: for two rotations the matrix returned by [relativeTransform] is a
    rotation again, and applying the second frame's transform to a point is
    applying the returned transform and then the first frame's. *)
Theorem relativeTransform_rigid (R1 : Matrix3) (t1 : Vector3)
        (R2 : Matrix3) (t2 : Vector3) :
  Mat.is_rotation R1 -> Mat.is_rotation R2 ->
  let (Rr, tr) := Geometry.relativeTransform R1 t1 R2 t2 in
  Mat.is_rotation Rr /\
  forall x, Geometry.iso_apply (Geometry.mkIso R2 t2) x
            = Geometry.iso_apply (Geometry.mkIso R1 t1)
                (Geometry.iso_apply (Geometry.mkIso Rr tr) x).
Proof.
  intros H1 H2. unfold Geometry.relativeTransform.
  split; [apply relative_rotation; assumption|].
  intros x. unfold Geometry.iso_apply. simpl Geometry.linear.
  simpl Geometry.translation.
  pose proof (rotation_mul_transpose R1 H1) as E.
  assert (Ea : forall v, Mat.mulv R1 (Mat.mulv (Mat.transpose R1) v) = v).
  { intros v. rewrite mat_mulv_mul, E. apply mat_mulv_identity. }
  transitivity
    (Vec.add (Vec.add (Mat.mulv R1 (Mat.mulv (Mat.transpose R1) (Mat.mulv R2 x)))
                      (Mat.mulv R1 (Mat.mulv (Mat.transpose R1) (Vec.sub t2 t1))))
             t1).
  - rewrite !Ea. apply vec_eq; simpl; ring.
  - rewrite <- (mat_mulv_mul (Mat.transpose R1) R2 x).
    apply vec_eq; simpl; ring.
Qed.

Lemma relativeTransform_rigid_witness :
  let (Rr, tr) := Geometry.relativeTransform
                    (mkMat 0 (-1) 0  1 0 0  0 0 1) (mkVec 1 0 0)
                    Mat.identity (mkVec 0 2 0) in
  Mat.is_rotation Rr /\
  forall x, Geometry.iso_apply (Geometry.mkIso Mat.identity (mkVec 0 2 0)) x
            = Geometry.iso_apply
                (Geometry.mkIso (mkMat 0 (-1) 0  1 0 0  0 0 1) (mkVec 1 0 0))
                (Geometry.iso_apply (Geometry.mkIso Rr tr) x).
Proof.
  exact (relativeTransform_rigid
           (mkMat 0 (-1) 0  1 0 0  0 0 1) (mkVec 1 0 0)
           Mat.identity (mkVec 0 2 0)
           quarter_turn_is_rotation identity_is_rotation).
Defined.

(** X11: for rotations, the relative transform of a frame to itself is the
    identity matrix with the zero translation, and the relative transform
    taken with the two frames exchanged is the inverse: the two compose to
    the identity. *)
Theorem relativeTransform_inverse (R1 : Matrix3) (t1 : Vector3)
        (R2 : Matrix3) (t2 : Vector3) :
  Mat.is_rotation R1 -> Mat.is_rotation R2 ->
  Geometry.relativeTransform R1 t1 R1 t1 = (Mat.identity, Vec.zero) /\
  (let (Ra, ta) := Geometry.relativeTransform R1 t1 R2 t2 in
   let (Rb, tb) := Geometry.relativeTransform R2 t2 R1 t1 in
   Geometry.iso_mul (Geometry.mkIso Ra ta) (Geometry.mkIso Rb tb)
   = Geometry.mkIso Mat.identity Vec.zero).
Proof.
  intros H1 H2. unfold Geometry.relativeTransform. split.
  - rewrite (proj1 H1). f_equal. apply vec_eq; simpl; ring.
  - unfold Geometry.iso_mul. simpl Geometry.linear. simpl Geometry.translation.
    pose proof (rotation_mul_transpose R2 H2) as E2.
    assert (EL : Mat.mul (Mat.mul (Mat.transpose R1) R2)
                         (Mat.mul (Mat.transpose R2) R1) = Mat.identity).
    { rewrite mat_mul_assoc, <- (mat_mul_assoc R2), E2, mat_mul_identity_l.
      exact (proj1 H1). }
    rewrite EL. f_equal.
    rewrite mat_mulv_mul, mat_mul_assoc, E2, mat_mul_identity_r.
    apply vec_eq; simpl; ring.
Qed.

Lemma relativeTransform_inverse_witness :
  Geometry.relativeTransform
    (mkMat 0 (-1) 0  1 0 0  0 0 1) (mkVec 1 0 0)
    (mkMat 0 (-1) 0  1 0 0  0 0 1) (mkVec 1 0 0)
  = (Mat.identity, Vec.zero).
Proof.
  exact (proj1 (relativeTransform_inverse
                  (mkMat 0 (-1) 0  1 0 0  0 0 1) (mkVec 1 0 0)
                  Mat.identity (mkVec 0 2 0)
                  quarter_turn_is_rotation identity_is_rotation)).
Defined.

(** ** Further properties of transform.h *)

(** X12: a second [getRotation] returns the matrix the first returned and
    changes nothing; [getRotation] never touches the quaternion or the
    translation and always leaves the flag set. *)
Theorem getRotation_idempotent (t : Transform3f) :
  Tf.getRotation (snd (Tf.getRotation t))
  = (fst (Tf.getRotation t), snd (Tf.getRotation t)) /\
  tf_q (snd (Tf.getRotation t)) = tf_q t /\
  tf_T (snd (Tf.getRotation t)) = tf_T t /\
  matrix_set (snd (Tf.getRotation t)) = true.
Proof.
  unfold Tf.getRotation.
  destruct (matrix_set t) eqn:E; simpl; rewrite ?E; simpl; repeat split.
Qed.

(** X13: whatever the cache held before, the matrix read after the
    rotation was changed through a quaternion, by [setQuatRotation],
    [setTransform], [inverse] or [operator*=], is the matrix of the
    object's quaternion; and the matrix read after [setRotation] or
    [setTransform] with a matrix is that very matrix, rotation or not. *)
Theorem getRotation_after_update (t : Transform3f) :
  (forall q_, fst (Tf.getRotation (Tf.setQuatRotation q_ t))
              = Quat.toRotation q_) /\
  (forall q_ T_, fst (Tf.getRotation (Tf.setTransform_qT q_ T_ t))
                 = Quat.toRotation q_) /\
  fst (Tf.getRotation (Tf.inverse t))
  = Quat.toRotation (Quat.conj (tf_q t)) /\
  (forall o, fst (Tf.getRotation (Tf.mul_assign o t))
             = Quat.toRotation (Quat.mul (tf_q t) (tf_q (Tf.deref o t)))) /\
  (forall R_, fst (Tf.getRotation (Tf.setRotation R_ t)) = R_) /\
  (forall R_ T_, fst (Tf.getRotation (Tf.setTransform_RT R_ T_ t)) = R_).
Proof.
  repeat split; intros; try reflexivity.
  destruct o; reflexivity.
Qed.

(** X14: the transform returned by [inverseTimes] has the quaternion and
    the translation of the product of the inverted receiver with the
    argument, for all transforms, unit quaternion or not. *)
Theorem inverseTimes_is_inverse_mul (R0 R1 : Matrix3f) (t o : Transform3f) :
  tf_q (fst (Tf.inverseTimes R0 t o)) = tf_q (Tf.mul R1 (Tf.inverse t) o) /\
  tf_T (fst (Tf.inverseTimes R0 t o)) = tf_T (Tf.mul R1 (Tf.inverse t) o) /\
  matrix_set (fst (Tf.inverseTimes R0 t o))
  = matrix_set (Tf.mul R1 (Tf.inverse t) o).
Proof.
  split; [reflexivity|]. split; [|reflexivity].
  simpl. rewrite quat_transform_sub. reflexivity.
Qed.

Lemma quat_mul_assoc (a b c : Quaternion3f) :
  Quat.mul (Quat.mul a b) c = Quat.mul a (Quat.mul b c).
Proof. apply quat_eq; simpl; ring. Qed.

(** X15: [operator*] is associative on the quaternion for all transforms
    and on the translation when the two left quaternions are unit. *)
Theorem mul_associative (R0 : Matrix3f) (T1 T2 T3 : Transform3f) :
  tf_q (Tf.mul R0 (Tf.mul R0 T1 T2) T3) = tf_q (Tf.mul R0 T1 (Tf.mul R0 T2 T3)) /\
  (Quat.is_unit (tf_q T1) -> Quat.is_unit (tf_q T2) ->
   tf_T (Tf.mul R0 (Tf.mul R0 T1 T2) T3)
   = tf_T (Tf.mul R0 T1 (Tf.mul R0 T2 T3))).
Proof.
  split.
  - simpl. apply quat_mul_assoc.
  - intros H1 H2. simpl.
    rewrite (quat_transform_mul _ _ _ H1 H2), quat_transform_add.
    symmetry. apply vec_add_assoc.
Qed.

Lemma mul_associative_witness :
  tf_T (Tf.mul Mat.identity
          (Tf.mul Mat.identity
             (Tf.ctor_qT Mat.identity (mkQuat (3/5) (4/5) 0 0) (mkVec 1 2 3))
             (Tf.ctor_qT Mat.identity (mkQuat 0 0 (5/13) (12/13)) (mkVec 4 5 6)))
          (Tf.ctor_qT Mat.identity (mkQuat 2 0 0 0) (mkVec 7 8 9)))
  = tf_T (Tf.mul Mat.identity
            (Tf.ctor_qT Mat.identity (mkQuat (3/5) (4/5) 0 0) (mkVec 1 2 3))
            (Tf.mul Mat.identity
               (Tf.ctor_qT Mat.identity (mkQuat 0 0 (5/13) (12/13)) (mkVec 4 5 6))
               (Tf.ctor_qT Mat.identity (mkQuat 2 0 0 0) (mkVec 7 8 9)))).
Proof.
  apply (proj2 (mul_associative Mat.identity
     (Tf.ctor_qT Mat.identity (mkQuat (3/5) (4/5) 0 0) (mkVec 1 2 3))
     (Tf.ctor_qT Mat.identity (mkQuat 0 0 (5/13) (12/13)) (mkVec 4 5 6))
     (Tf.ctor_qT Mat.identity (mkQuat 2 0 0 0) (mkVec 7 8 9))));
    unfold Quat.is_unit, Quat.squaredNorm; simpl; lra.
Defined.

Lemma vec_neg_neg (v : Vector3) : Vec.neg (Vec.neg v) = v.
Proof. destruct v. apply vec_eq; simpl; ring. Qed.

(** X16: for a unit quaternion [inverse] undoes itself, two calls giving
    back the quaternion and the translation, and the inverted transform
    undoes the transform on every vector, in either order. *)
Theorem inverse_involution (t : Transform3f) :
  Quat.is_unit (tf_q t) ->
  tf_q (Tf.inverse (Tf.inverse t)) = tf_q t /\
  tf_T (Tf.inverse (Tf.inverse t)) = tf_T t /\
  (forall v, Tf.transform (Tf.inverse t) (Tf.transform t v) = v) /\
  (forall v, Tf.transform t (Tf.transform (Tf.inverse t) v) = v).
Proof.
  intros Hu. split; [|split; [|split]].
  - simpl. apply quat_conj_conj.
  - simpl. rewrite quat_conj_conj, !quat_transform_neg, vec_neg_neg.
    apply quat_transform_cancel_conj, Hu.
  - intros v. unfold Tf.transform. simpl.
    rewrite quat_transform_add, (quat_transform_conj_cancel _ _ Hu).
    rewrite vec_add_assoc, quat_transform_neg, vec_add_neg_r.
    destruct v. apply vec_eq; simpl; ring.
  - intros v. unfold Tf.transform. simpl.
    rewrite quat_transform_add, (quat_transform_cancel_conj _ _ Hu).
    rewrite (quat_transform_cancel_conj _ _ Hu).
    rewrite vec_add_assoc, vec_add_neg_l.
    destruct v. apply vec_eq; simpl; ring.
Qed.

Lemma inverse_involution_witness :
  tf_T (Tf.inverse (Tf.inverse
          (Tf.ctor_qT Mat.identity (mkQuat (3/5) (4/5) 0 0) (mkVec 1 2 3))))
  = mkVec 1 2 3.
Proof.
  apply (proj1 (proj2 (inverse_involution
     (Tf.ctor_qT Mat.identity (mkQuat (3/5) (4/5) 0 0) (mkVec 1 2 3))
     ltac:(unfold Quat.is_unit, Quat.squaredNorm; simpl; lra)))).
Defined.

Lemma quat_isIdentity_iff (a : Quaternion3f) :
  Quat.isIdentity a = true <-> a = Quat.identity.
Proof.
  unfold Quat.isIdentity. destruct a as [w x y z]. simpl. split.
  - destruct (Req_dec_T w 1); [|discriminate].
    destruct (Req_dec_T x 0); [|discriminate].
    destruct (Req_dec_T y 0); [|discriminate].
    destruct (Req_dec_T z 0); [|discriminate].
    intros _. subst. reflexivity.
  - intros E. injection E as -> -> -> ->.
    destruct (Req_dec_T 1 1) as [_|n]; [|exfalso; apply n; reflexivity].
    destruct (Req_dec_T 0 0) as [_|n]; [|exfalso; apply n; reflexivity].
    reflexivity.
Qed.

Lemma vec_isZero_iff (v : Vector3) : Vec.isZero v = true <-> v = Vec.zero.
Proof.
  unfold Vec.isZero. destruct v as [x y z]. simpl. split.
  - destruct (Req_dec_T x 0); [|discriminate].
    destruct (Req_dec_T y 0); [|discriminate].
    destruct (Req_dec_T z 0); [|discriminate].
    intros _. subst. reflexivity.
  - intros E. injection E as -> -> ->.
    destruct (Req_dec_T 0 0) as [_|n]; [|exfalso; apply n; reflexivity].
    reflexivity.
Qed.

Lemma tf_isIdentity_iff (t : Transform3f) :
  Tf.isIdentity t = true <-> tf_q t = Quat.identity /\ tf_T t = Vec.zero.
Proof.
  unfold Tf.isIdentity. rewrite andb_true_iff.
  rewrite quat_isIdentity_iff, vec_isZero_iff. reflexivity.
Qed.

Lemma quat_mul_identity_l (a : Quaternion3f) : Quat.mul Quat.identity a = a.
Proof. destruct a. apply quat_eq; simpl; ring. Qed.

Lemma quat_mul_identity_r (a : Quaternion3f) : Quat.mul a Quat.identity = a.
Proof. destruct a. apply quat_eq; simpl; ring. Qed.

Lemma quat_transform_zero (a : Quaternion3f) :
  Quat.transform a Vec.zero = Vec.zero.
Proof. unfold Quat.transform. apply vec_eq; simpl; ring. Qed.

(** X17: [isIdentity] holds exactly of the transforms whose quaternion is
    (1,0,0,0) and whose translation is zero, whatever the flag and the
    cache; [setIdentity] and the default constructor produce such a
    transform; such a transform fixes every vector and is neutral for
    [operator*] on either side. *)
Theorem isIdentity_neutral (R0 : Matrix3f) (e t : Transform3f) :
  (Tf.isIdentity e = true <-> tf_q e = Quat.identity /\ tf_T e = Vec.zero) /\
  Tf.isIdentity (Tf.setIdentity t) = true /\
  (forall M v, Tf.isIdentity (Tf.ctor_default M v) = true) /\
  (Tf.isIdentity e = true ->
   (forall v, Tf.transform e v = v) /\
   tf_q (Tf.mul R0 e t) = tf_q t /\ tf_T (Tf.mul R0 e t) = tf_T t /\
   tf_q (Tf.mul R0 t e) = tf_q t /\ tf_T (Tf.mul R0 t e) = tf_T t).
Proof.
  split; [apply tf_isIdentity_iff|].
  split; [apply tf_isIdentity_iff; split; reflexivity|].
  split; [intros; apply tf_isIdentity_iff; split; reflexivity|].
  intros He. apply tf_isIdentity_iff in He. destruct He as [Hq HT].
  unfold Tf.transform. simpl. rewrite Hq, HT.
  split; [|split; [|split; [|split]]].
  - intros v. rewrite quat_transform_identity.
    destruct v. apply vec_eq; simpl; ring.
  - apply quat_mul_identity_l.
  - rewrite quat_transform_identity.
    destruct (tf_T t). apply vec_eq; simpl; ring.
  - apply quat_mul_identity_r.
  - rewrite quat_transform_zero.
    destruct (tf_T t). apply vec_eq; simpl; ring.
Qed.

Lemma isIdentity_neutral_witness :
  tf_T (Tf.mul Mat.identity
          (Tf.ctor_qT Mat.identity (mkQuat (3/5) (4/5) 0 0) (mkVec 1 2 3))
          (Tf.ctor_default Mat.identity (mkVec 7 7 7)))
  = mkVec 1 2 3.
Proof.
  refine (proj2 (proj2 (proj2 (proj2
    (proj2 (proj2 (proj2 (isIdentity_neutral Mat.identity
       (Tf.ctor_default Mat.identity (mkVec 7 7 7))
       (Tf.ctor_qT Mat.identity (mkQuat (3/5) (4/5) 0 0) (mkVec 1 2 3)))))
     _))))).
  apply tf_isIdentity_intro; reflexivity.
Defined.

(** X18: negating the quaternion of a transform does not change what the
    transform does to any vector, and yet [isIdentity], which compares with
    (1,0,0,0) exactly, holds of at most one of the two. *)
Theorem isIdentity_double_cover (t : Transform3f) :
  (forall v, Tf.transform (Tf.setQuatRotation (Quat.neg (tf_q t)) t) v
             = Tf.transform t v) /\
  (Tf.isIdentity t = true ->
   Tf.isIdentity (Tf.setQuatRotation (Quat.neg (tf_q t)) t) = false).
Proof.
  split.
  - intros v. unfold Tf.transform, Quat.transform. simpl.
    apply vec_eq; simpl; ring.
  - intros He. apply tf_isIdentity_iff in He. destruct He as [Hq HT].
    destruct (Tf.isIdentity (Tf.setQuatRotation (Quat.neg (tf_q t)) t)) eqn:E;
      [|reflexivity].
    apply tf_isIdentity_iff in E. destruct E as [E _]. simpl in E.
    rewrite Hq in E. unfold Quat.neg, Quat.identity in E. simpl in E.
    injection E as E. exfalso. lra.
Qed.

Lemma isIdentity_double_cover_witness :
  Tf.isIdentity
    (Tf.setQuatRotation (Quat.neg (tf_q (Tf.ctor_default Mat.identity Vec.zero)))
       (Tf.ctor_default Mat.identity Vec.zero))
  = false.
Proof.
  apply (proj2 (isIdentity_double_cover (Tf.ctor_default Mat.identity Vec.zero))).
  apply tf_isIdentity_intro; reflexivity.
Defined.

(** The quaternion computed from a rotation matrix has norm 1. *)
Lemma fromRotation_unit (M : Matrix3f) :
  Mat.is_rotation M -> Quat.is_unit (Quat.fromRotation M).
Proof.
  destruct M as [a b c d e f g h i]. intros Hrot.
  unfold Quat.is_unit, Quat.squaredNorm, Quat.fromRotation.
  cbv beta zeta iota delta [m00 m01 m02 m10 m11 m12 m20 m21 m22].
  destruct (Rgt_dec (a + e + i) 0) as [Ht|Ht].
  - assert (HP : 0 < a + e + i + 1) by lra.
    destruct (rank1_W _ _ _ _ _ _ _ _ _ Hrot) as (F1 & F2 & F3 & _).
    simpl.
    rewrite (pivot_sq _ HP), (pivot_quad _ HP _ _ _ F1),
      (pivot_quad _ HP _ _ _ F2), (pivot_quad _ HP _ _ _ F3). lra.
  - destruct (Rgt_dec i (Rmax a e)) as [Hi|Hi].
    + assert (HP : 0 < i - a - e + 1).
      { pose proof (Rmax_l a e). pose proof (Rmax_r a e). lra. }
      destruct (rank1_Z _ _ _ _ _ _ _ _ _ Hrot) as (F1 & F2 & F3 & _).
      simpl.
      rewrite (pivot_sq _ HP), (pivot_quad _ HP _ _ _ F1),
        (pivot_quad _ HP _ _ _ F2), (pivot_quad _ HP _ _ _ F3). lra.
    + destruct (Rgt_dec e a) as [He|He].
      * assert (HP : 0 < e - i - a + 1).
        { rewrite Rmax_right in Hi by lra. lra. }
        destruct (rank1_Y _ _ _ _ _ _ _ _ _ Hrot) as (F1 & F2 & F3 & _).
        simpl.
        rewrite (pivot_sq _ HP), (pivot_quad _ HP _ _ _ F1),
          (pivot_quad _ HP _ _ _ F2), (pivot_quad _ HP _ _ _ F3). lra.
      * assert (HP : 0 < a - e - i + 1).
        { rewrite Rmax_left in Hi by lra. lra. }
        destruct (rank1_X _ _ _ _ _ _ _ _ _ Hrot) as (F1 & F2 & F3 & _).
        simpl.
        rewrite (pivot_sq _ HP), (pivot_quad _ HP _ _ _ F1),
          (pivot_quad _ HP _ _ _ F2), (pivot_quad _ HP _ _ _ F3). lra.
Qed.

(** X19: the operations keep the quaternion at norm 1: the product, the
    in-place product (also of a transform with itself), [inverse] and
    [inverseTimes] of transforms with unit quaternions have unit
    quaternions, and so has every transform set from a rotation matrix. *)
Theorem unit_quaternion_kept (R0 : Matrix3f) (T1 T2 : Transform3f) :
  Quat.is_unit (tf_q T1) -> Quat.is_unit (tf_q T2) ->
  Quat.is_unit (tf_q (Tf.mul R0 T1 T2)) /\
  Quat.is_unit (tf_q (Tf.mul_assign (Tf.Other T2) T1)) /\
  Quat.is_unit (tf_q (Tf.mul_assign Tf.This T1)) /\
  Quat.is_unit (tf_q (Tf.inverse T1)) /\
  Quat.is_unit (tf_q (fst (Tf.inverseTimes R0 T1 T2))) /\
  (forall M, Mat.is_rotation M ->
     Quat.is_unit (tf_q (Tf.setRotation M T1)) /\
     (forall v, Quat.is_unit (tf_q (Tf.setTransform_RT M v T1)) /\
                Quat.is_unit (tf_q (Tf.ctor_RT M v)) /\
                Quat.is_unit (tf_q (Tf.ctor_R v M)))).
Proof.
  intros H1 H2. simpl.
  split; [apply quat_unit_mul; assumption|].
  split; [apply quat_unit_mul; assumption|].
  split; [apply quat_unit_mul; assumption|].
  split; [apply quat_unit_conj; assumption|].
  split; [apply quat_unit_mul; [apply quat_unit_conj|]; assumption|].
  intros M HM. pose proof (fromRotation_unit M HM) as Hq.
  split; [exact Hq|]. intros v. repeat split; exact Hq.
Qed.

Lemma unit_quaternion_kept_witness :
  Quat.is_unit
    (tf_q (Tf.mul_assign Tf.This
             (Tf.ctor_qT Mat.identity (mkQuat (3/5) (4/5) 0 0) (mkVec 1 2 3)))).
Proof.
  refine (proj1 (proj2 (proj2 (unit_quaternion_kept Mat.identity
     (Tf.ctor_qT Mat.identity (mkQuat (3/5) (4/5) 0 0) (mkVec 1 2 3))
     (Tf.ctor_qT Mat.identity (mkQuat 0 0 (5/13) (12/13)) (mkVec 4 5 6))
     _ _))));
    unfold Quat.is_unit, Quat.squaredNorm; simpl; lra.
Defined.




Lemma toRotation_rotation (a : Quaternion3f) :
  Quat.is_unit a -> Mat.is_rotation (Quat.toRotation a).
Proof.
  destruct a as [w x y z]. unfold Quat.is_unit, Quat.squaredNorm. simpl.
  intros Hu.
  assert (EM : Quat.toRotation (mkQuat w x y z)
               = mkMat (w * w + x * x - y * y - z * z)
                       (2 * x * y - 2 * w * z) (2 * x * z + 2 * w * y)
                       (2 * x * y + 2 * w * z)
                       (w * w - x * x + y * y - z * z)
                       (2 * y * z - 2 * w * x)
                       (2 * x * z - 2 * w * y) (2 * y * z + 2 * w * x)
                       (w * w - x * x - y * y + z * z)).
  { unfold Quat.toRotation. apply mat_eq; simpl; lra. }
  rewrite EM. split.
  - apply mat_eq; simpl;
      first [ ring
            | transitivity ((w * w + x * x + y * y + z * z)
                            * (w * w + x * x + y * y + z * z));
              [ring | rewrite Hu; ring] ].
  - unfold Mat.det. simpl.
    transitivity ((w * w + x * x + y * y + z * z)
                  * (w * w + x * x + y * y + z * z)
                  * (w * w + x * x + y * y + z * z));
      [ring | rewrite Hu; ring].
Qed.

(** X21: on a reachable object whose quaternion has norm 1, the matrix
    returned by [getRotation] is a rotation matrix. *)
Theorem getRotation_is_rotation (t : Transform3f) :
  Tf.reachable t -> Quat.is_unit (tf_q t) ->
  Mat.is_rotation (fst (Tf.getRotation t)).
Proof.
  intros Hr Hu. pose proof (reachable_cache_ok t Hr) as Hok.
  assert (E : fst (Tf.getRotation t) = Quat.toRotation (tf_q t)).
  { unfold Tf.getRotation. destruct (matrix_set t) eqn:Es; simpl.
    - apply Hok, Es.
    - reflexivity. }
  rewrite E. apply toRotation_rotation, Hu.
Qed.

Lemma getRotation_is_rotation_witness :
  Mat.is_rotation
    (fst (Tf.getRotation
            (Tf.inverse
               (Tf.ctor_qT Mat.identity (mkQuat (3/5) (4/5) 0 0) (mkVec 1 2 3))))).
Proof.
  apply getRotation_is_rotation.
  - eapply Tf.r_step.
    + apply Tf.r_constructed, Tf.c_qT.
    + apply Tf.s_inverse.
  - unfold Quat.is_unit, Quat.squaredNorm; simpl; lra.
Defined.

Lemma quat_sandwich_sqn (a : Quaternion3f) (v : Vector3) :
  Vec.squaredNorm (Quat.sandwich a v)
  = Quat.squaredNorm a * Quat.squaredNorm a * Vec.squaredNorm v.
Proof.
  unfold Vec.squaredNorm, Vec.dot, Quat.sandwich, Quat.squaredNorm. simpl. ring.
Qed.

(** X22: a transform with a unit quaternion keeps distances: the images of
    two vectors are as far apart as the vectors. *)
Theorem transform_keeps_distance (t : Transform3f) (a b : Vec3f) :
  Quat.is_unit (tf_q t) ->
  Vec.norm (Vec.sub (Tf.transform t a) (Tf.transform t b))
  = Vec.norm (Vec.sub a b).
Proof.
  intros Hu. unfold Vec.norm. f_equal.
  assert (E : Vec.sub (Tf.transform t a) (Tf.transform t b)
              = Quat.transform (tf_q t) (Vec.sub a b)).
  { unfold Tf.transform, Quat.transform. apply vec_eq; simpl; ring. }
  rewrite E, (quat_transform_sandwich _ _ Hu), quat_sandwich_sqn.
  unfold Quat.is_unit in Hu. rewrite Hu. ring.
Qed.

Lemma transform_keeps_distance_witness :
  Vec.norm
    (Vec.sub
       (Tf.transform
          (Tf.ctor_qT Mat.identity (mkQuat (3/5) (4/5) 0 0) (mkVec 1 2 3))
          (mkVec 1 0 0))
       (Tf.transform
          (Tf.ctor_qT Mat.identity (mkQuat (3/5) (4/5) 0 0) (mkVec 1 2 3))
          (mkVec 0 1 0)))
  = Vec.norm (Vec.sub (mkVec 1 0 0) (mkVec 0 1 0)).
Proof.
  apply transform_keeps_distance.
  unfold Quat.is_unit, Quat.squaredNorm; simpl; lra.
Defined.

(** X23: after [T1 *= T2] with unit quaternions, [T1] applies [T2] and
    then the old [T1]; after [T1 *= T1] it applies the old [T1] twice. *)
Theorem mul_assign_transform (T1 : Transform3f) (other : Tf.operand)
        (v : Vec3f) :
  Quat.is_unit (tf_q T1) -> Quat.is_unit (tf_q (Tf.deref other T1)) ->
  Tf.transform (Tf.mul_assign other T1) v
  = Tf.transform T1 (Tf.transform (Tf.deref other T1) v).
Proof.
  intros H1 H2. unfold Tf.transform.
  destruct other as [|T2]; simpl in *.
  - rewrite (quat_transform_mul _ _ v H1 H1), quat_transform_add.
    symmetry. apply vec_add_assoc.
  - rewrite (quat_transform_mul _ _ v H1 H2), quat_transform_add.
    symmetry. apply vec_add_assoc.
Qed.

Lemma mul_assign_transform_witness :
  Tf.transform
    (Tf.mul_assign Tf.This
       (Tf.ctor_qT Mat.identity (mkQuat (3/5) (4/5) 0 0) (mkVec 1 2 3)))
    (mkVec 1 1 1)
  = Tf.transform
      (Tf.ctor_qT Mat.identity (mkQuat (3/5) (4/5) 0 0) (mkVec 1 2 3))
      (Tf.transform
         (Tf.ctor_qT Mat.identity (mkQuat (3/5) (4/5) 0 0) (mkVec 1 2 3))
         (mkVec 1 1 1)).
Proof.
  apply (mul_assign_transform
           (Tf.ctor_qT Mat.identity (mkQuat (3/5) (4/5) 0 0) (mkVec 1 2 3))
           Tf.This (mkVec 1 1 1));
    unfold Quat.is_unit, Quat.squaredNorm; simpl; lra.
Defined.
